(** * crypto/x509util: certificate profiles (Root, Intermediate, Leaf)

    A shallow embedding of the profile constructors of the x509util package:
    the three default templates, the entry points that wire a template and a
    list of options into a profile, and the self-signing step.

    Certificates are heap objects: the Go code passes [*x509.Certificate]
    around and stores the same pointer twice for self-signed profiles, so the
    model keeps a store of certificate objects and profiles hold addresses. *)

From stdpp Require Import base numbers list strings.
From Stdlib Require Import ZArith Lia.

Local Open Scope string_scope.
Local Open Scope list_scope.
Local Open Scope Z_scope.

(** ** The parts of the Go standard library the package uses *)

Module time.
(** [time.Duration] is an int64 count of nanoseconds; [time.Time] is kept as
    an instant in nanoseconds. *)
Definition Duration := Z.
Definition Time := Z.

Definition Nanosecond : Duration := 1.
Definition Microsecond : Duration := 1000 * Nanosecond.
Definition Millisecond : Duration := 1000 * Microsecond.
Definition Second : Duration := 1000 * Millisecond.
Definition Minute : Duration := 60 * Second.
Definition Hour : Duration := 60 * Minute.

Definition maxDuration : Duration := 2 ^ 63 - 1.

(** [t.Add(d)] *)
Definition Add (t : Time) (d : Duration) : Time := t + d.
End time.

Module asn1.
(** [asn1.ObjectIdentifier] is [[]int]. *)
Definition ObjectIdentifier := list Z.
End asn1.

Module pkix.
Record AttributeTypeAndValue := {
  Type_ : asn1.ObjectIdentifier;
  Value : string
}.

Record Name := {
  Country : list string;
  Organization : list string;
  OrganizationalUnit : list string;
  Locality : list string;
  Province : list string;
  StreetAddress : list string;
  PostalCode : list string;
  SerialNumber : string;
  CommonName : string;
  Names : list AttributeTypeAndValue;
  ExtraNames : list AttributeTypeAndValue
}.

(** [pkix.Name{CommonName: cn}]: every other field has its zero value. *)
Definition Name_CommonName (cn : string) : Name :=
  {| Country := []; Organization := []; OrganizationalUnit := [];
     Locality := []; Province := []; StreetAddress := []; PostalCode := [];
     SerialNumber := ""; CommonName := cn; Names := []; ExtraNames := [] |}.

Definition with_CommonName (cn : string) (n : Name) : Name :=
  {| Country := Country n; Organization := Organization n;
     OrganizationalUnit := OrganizationalUnit n; Locality := Locality n;
     Province := Province n; StreetAddress := StreetAddress n;
     PostalCode := PostalCode n; SerialNumber := SerialNumber n;
     CommonName := cn; Names := Names n; ExtraNames := ExtraNames n |}.

Record Extension := {
  Id : asn1.ObjectIdentifier;
  Critical : bool;
  ExtValue : list Z
}.
End pkix.

Module crypto.
(** Key material is opaque here; a key is known by an identifier only.
    [crypto.PublicKey] and [crypto.PrivateKey] are interface values, so they
    may be nil: [None]. *)
Inductive Key := key (id : nat).
Definition PublicKey := option Key.
Definition PrivateKey := option Key.
End crypto.

Module x509.
(** [x509.KeyUsage] is a bit set: [1 << iota]. *)
Definition KeyUsage := Z.
Definition KeyUsageDigitalSignature : KeyUsage := Z.shiftl 1 0.
Definition KeyUsageContentCommitment : KeyUsage := Z.shiftl 1 1.
Definition KeyUsageKeyEncipherment : KeyUsage := Z.shiftl 1 2.
Definition KeyUsageDataEncipherment : KeyUsage := Z.shiftl 1 3.
Definition KeyUsageKeyAgreement : KeyUsage := Z.shiftl 1 4.
Definition KeyUsageCertSign : KeyUsage := Z.shiftl 1 5.
Definition KeyUsageCRLSign : KeyUsage := Z.shiftl 1 6.
Definition KeyUsageEncipherOnly : KeyUsage := Z.shiftl 1 7.
Definition KeyUsageDecipherOnly : KeyUsage := Z.shiftl 1 8.

Definition allKeyUsages : list KeyUsage :=
  [ KeyUsageDigitalSignature; KeyUsageContentCommitment;
    KeyUsageKeyEncipherment; KeyUsageDataEncipherment; KeyUsageKeyAgreement;
    KeyUsageCertSign; KeyUsageCRLSign; KeyUsageEncipherOnly;
    KeyUsageDecipherOnly ].

(** [ku & bit != 0] *)
Definition hasKeyUsage (ku bit : KeyUsage) : bool :=
  negb (Z.land ku bit =? 0).

Inductive ExtKeyUsage :=
| ExtKeyUsageAny
| ExtKeyUsageServerAuth
| ExtKeyUsageClientAuth
| ExtKeyUsageCodeSigning
| ExtKeyUsageEmailProtection
| ExtKeyUsageIPSECEndSystem
| ExtKeyUsageIPSECTunnel
| ExtKeyUsageIPSECUser
| ExtKeyUsageTimeStamping
| ExtKeyUsageOCSPSigning
| ExtKeyUsageMicrosoftServerGatedCrypto
| ExtKeyUsageNetscapeServerGatedCrypto
| ExtKeyUsageMicrosoftCommercialCodeSigning
| ExtKeyUsageMicrosoftKernelCodeSigning.

(** The fields of [x509.Certificate] that the package reads or writes; the
    remaining fields of the Go struct keep their zero value throughout. *)
Record Certificate := {
  IsCA : bool;
  NotBefore : time.Time;
  NotAfter : time.Time;
  PolicyIdentifiers : list asn1.ObjectIdentifier;
  KeyUsage_ : KeyUsage;
  ExtKeyUsage_ : list ExtKeyUsage;
  UnknownExtKeyUsage : list asn1.ObjectIdentifier;
  BasicConstraintsValid : bool;
  MaxPathLen : Z;
  MaxPathLenZero : bool;
  Issuer : pkix.Name;
  Subject : pkix.Name;
  PublicKey : crypto.PublicKey;
  ExtraExtensions : list pkix.Extension;
  DNSNames : list string;
  EmailAddresses : list string;
  IPAddresses : list (list Z);
  URIs : list string
}.

Record CertificateRequest := {
  csrSubject : pkix.Name;
  csrPublicKey : crypto.PublicKey;
  csrExtensions : list pkix.Extension;
  csrDNSNames : list string;
  csrEmailAddresses : list string;
  csrIPAddresses : list (list Z);
  csrURIs : list string
}.

(** Field assignments [c.F = v]. *)
Definition set_ExtraExtensions (v : list pkix.Extension) (c : Certificate) :=
  {| IsCA := IsCA c; NotBefore := NotBefore c; NotAfter := NotAfter c;
     PolicyIdentifiers := PolicyIdentifiers c; KeyUsage_ := KeyUsage_ c;
     ExtKeyUsage_ := ExtKeyUsage_ c;
     UnknownExtKeyUsage := UnknownExtKeyUsage c;
     BasicConstraintsValid := BasicConstraintsValid c;
     MaxPathLen := MaxPathLen c; MaxPathLenZero := MaxPathLenZero c;
     Issuer := Issuer c; Subject := Subject c; PublicKey := PublicKey c;
     ExtraExtensions := v; DNSNames := DNSNames c;
     EmailAddresses := EmailAddresses c; IPAddresses := IPAddresses c;
     URIs := URIs c |}.

Definition set_DNSNames (v : list string) (c : Certificate) :=
  {| IsCA := IsCA c; NotBefore := NotBefore c; NotAfter := NotAfter c;
     PolicyIdentifiers := PolicyIdentifiers c; KeyUsage_ := KeyUsage_ c;
     ExtKeyUsage_ := ExtKeyUsage_ c;
     UnknownExtKeyUsage := UnknownExtKeyUsage c;
     BasicConstraintsValid := BasicConstraintsValid c;
     MaxPathLen := MaxPathLen c; MaxPathLenZero := MaxPathLenZero c;
     Issuer := Issuer c; Subject := Subject c; PublicKey := PublicKey c;
     ExtraExtensions := ExtraExtensions c; DNSNames := v;
     EmailAddresses := EmailAddresses c; IPAddresses := IPAddresses c;
     URIs := URIs c |}.

Definition set_EmailAddresses (v : list string) (c : Certificate) :=
  {| IsCA := IsCA c; NotBefore := NotBefore c; NotAfter := NotAfter c;
     PolicyIdentifiers := PolicyIdentifiers c; KeyUsage_ := KeyUsage_ c;
     ExtKeyUsage_ := ExtKeyUsage_ c;
     UnknownExtKeyUsage := UnknownExtKeyUsage c;
     BasicConstraintsValid := BasicConstraintsValid c;
     MaxPathLen := MaxPathLen c; MaxPathLenZero := MaxPathLenZero c;
     Issuer := Issuer c; Subject := Subject c; PublicKey := PublicKey c;
     ExtraExtensions := ExtraExtensions c; DNSNames := DNSNames c;
     EmailAddresses := v; IPAddresses := IPAddresses c; URIs := URIs c |}.

Definition set_IPAddresses (v : list (list Z)) (c : Certificate) :=
  {| IsCA := IsCA c; NotBefore := NotBefore c; NotAfter := NotAfter c;
     PolicyIdentifiers := PolicyIdentifiers c; KeyUsage_ := KeyUsage_ c;
     ExtKeyUsage_ := ExtKeyUsage_ c;
     UnknownExtKeyUsage := UnknownExtKeyUsage c;
     BasicConstraintsValid := BasicConstraintsValid c;
     MaxPathLen := MaxPathLen c; MaxPathLenZero := MaxPathLenZero c;
     Issuer := Issuer c; Subject := Subject c; PublicKey := PublicKey c;
     ExtraExtensions := ExtraExtensions c; DNSNames := DNSNames c;
     EmailAddresses := EmailAddresses c; IPAddresses := v; URIs := URIs c |}.

Definition set_URIs (v : list string) (c : Certificate) :=
  {| IsCA := IsCA c; NotBefore := NotBefore c; NotAfter := NotAfter c;
     PolicyIdentifiers := PolicyIdentifiers c; KeyUsage_ := KeyUsage_ c;
     ExtKeyUsage_ := ExtKeyUsage_ c;
     UnknownExtKeyUsage := UnknownExtKeyUsage c;
     BasicConstraintsValid := BasicConstraintsValid c;
     MaxPathLen := MaxPathLen c; MaxPathLenZero := MaxPathLenZero c;
     Issuer := Issuer c; Subject := Subject c; PublicKey := PublicKey c;
     ExtraExtensions := ExtraExtensions c; DNSNames := DNSNames c;
     EmailAddresses := EmailAddresses c; IPAddresses := IPAddresses c;
     URIs := v |}.

Definition set_Subject (v : pkix.Name) (c : Certificate) :=
  {| IsCA := IsCA c; NotBefore := NotBefore c; NotAfter := NotAfter c;
     PolicyIdentifiers := PolicyIdentifiers c; KeyUsage_ := KeyUsage_ c;
     ExtKeyUsage_ := ExtKeyUsage_ c;
     UnknownExtKeyUsage := UnknownExtKeyUsage c;
     BasicConstraintsValid := BasicConstraintsValid c;
     MaxPathLen := MaxPathLen c; MaxPathLenZero := MaxPathLenZero c;
     Issuer := Issuer c; Subject := v; PublicKey := PublicKey c;
     ExtraExtensions := ExtraExtensions c; DNSNames := DNSNames c;
     EmailAddresses := EmailAddresses c; IPAddresses := IPAddresses c;
     URIs := URIs c |}.

Definition set_IsCA (v : bool) (c : Certificate) :=
  {| IsCA := v; NotBefore := NotBefore c; NotAfter := NotAfter c;
     PolicyIdentifiers := PolicyIdentifiers c; KeyUsage_ := KeyUsage_ c;
     ExtKeyUsage_ := ExtKeyUsage_ c;
     UnknownExtKeyUsage := UnknownExtKeyUsage c;
     BasicConstraintsValid := BasicConstraintsValid c;
     MaxPathLen := MaxPathLen c; MaxPathLenZero := MaxPathLenZero c;
     Issuer := Issuer c; Subject := Subject c; PublicKey := PublicKey c;
     ExtraExtensions := ExtraExtensions c; DNSNames := DNSNames c;
     EmailAddresses := EmailAddresses c; IPAddresses := IPAddresses c;
     URIs := URIs c |}.
Definition set_ExtKeyUsage (v : list ExtKeyUsage) (c : Certificate) :=
  {| IsCA := IsCA c; NotBefore := NotBefore c; NotAfter := NotAfter c;
     PolicyIdentifiers := PolicyIdentifiers c; KeyUsage_ := KeyUsage_ c;
     ExtKeyUsage_ := v;
     UnknownExtKeyUsage := UnknownExtKeyUsage c;
     BasicConstraintsValid := BasicConstraintsValid c;
     MaxPathLen := MaxPathLen c; MaxPathLenZero := MaxPathLenZero c;
     Issuer := Issuer c; Subject := Subject c; PublicKey := PublicKey c;
     ExtraExtensions := ExtraExtensions c; DNSNames := DNSNames c;
     EmailAddresses := EmailAddresses c; IPAddresses := IPAddresses c;
     URIs := URIs c |}.

(** How crypto/x509 reads the path-length fields when it creates a
    certificate: the constraint is part of the basic constraints, and a zero
    [MaxPathLen] without [MaxPathLenZero], like -1, means that none is
    asked for. *)
Definition pathLenConstraint (c : Certificate) : option Z :=
  if BasicConstraintsValid c then
    if (MaxPathLen c =? 0) && negb (MaxPathLenZero c) then None
    else if MaxPathLen c =? -1 then None
    else Some (MaxPathLen c)
  else None.
End x509.

(** ** Errors, the store and the construction monad *)

(** [errors.Errorf] builds an error from a message, [errors.WithStack] wraps
    one. *)
Inductive error :=
| Errorf (msg : string)
| WithStack (e : error).

(** A [*x509.Certificate]: nil, or the address of a certificate object. *)
Inductive ptr :=
| null
| addr (a : nat).

(** What a construction runs against: the certificate objects allocated so
    far (a pointer is an index into [certs]), the clock that [time.Now] reads,
    the answer the key-generation service gives when asked (a public and a
    private key, or an error), and the three key fields of the profile object
    under construction. *)
Record World := {
  certs : list x509.Certificate;
  clock : time.Time;
  keygen : error + crypto.Key * crypto.Key;
  subjectPublicKey : crypto.PublicKey;
  subjectPrivateKey : crypto.PrivateKey;
  issuerPrivateKey : crypto.PrivateKey
}.

Definition with_certs (h : list x509.Certificate) (w : World) : World :=
  {| certs := h; clock := clock w; keygen := keygen w;
     subjectPublicKey := subjectPublicKey w;
     subjectPrivateKey := subjectPrivateKey w;
     issuerPrivateKey := issuerPrivateKey w |}.

Definition with_subjectPublicKey (k : crypto.PublicKey) (w : World) : World :=
  {| certs := certs w; clock := clock w; keygen := keygen w;
     subjectPublicKey := k;
     subjectPrivateKey := subjectPrivateKey w;
     issuerPrivateKey := issuerPrivateKey w |}.

Definition with_subjectPrivateKey (k : crypto.PrivateKey) (w : World) : World :=
  {| certs := certs w; clock := clock w; keygen := keygen w;
     subjectPublicKey := subjectPublicKey w;
     subjectPrivateKey := k;
     issuerPrivateKey := issuerPrivateKey w |}.

Definition with_issuerPrivateKey (k : crypto.PrivateKey) (w : World) : World :=
  {| certs := certs w; clock := clock w; keygen := keygen w;
     subjectPublicKey := subjectPublicKey w;
     subjectPrivateKey := subjectPrivateKey w;
     issuerPrivateKey := k |}.

(** A Go call returns a value, returns an error, or panics (nil
    dereference). *)
Inductive Result (A : Type) :=
| Ok (a : A)
| Err (e : error)
| Panic.
Arguments Ok {A} a.
Arguments Err {A} e.
Arguments Panic {A}.

Definition M (A : Type) : Type := World -> Result (A * World).

Definition ret {A} (a : A) : M A := fun w => Ok (a, w).

Definition bind {A B} (m : M A) (k : A -> M B) : M B :=
  fun w =>
    match m w with
    | Ok (a, w') => k a w'
    | Err e => Err e
    | Panic => Panic
    end.

Notation "x <- m ;; k" := (bind m (fun x => k))
  (at level 100, m at next level, right associativity).

(** [return nil, err] *)
Definition fail {A} (e : error) : M A := fun _ => Err e.

(** [time.Now()] *)
Definition time_Now : M time.Time := fun w => Ok (clock w, w).

(** [&x509.Certificate{...}]: a fresh object at the next free address. *)
Definition new (c : x509.Certificate) : M ptr :=
  fun w => Ok (addr (length (certs w)), with_certs (certs w ++ [c]) w).

(** [*p] as an rvalue. *)
Definition load (p : ptr) : M x509.Certificate :=
  fun w =>
    match p with
    | null => Panic
    | addr a =>
        match certs w !! a with
        | Some c => Ok (c, w)
        | None => Panic
        end
    end.

(** [*p = c] *)
Definition store (p : ptr) (c : x509.Certificate) : M unit :=
  fun w =>
    match p with
    | null => Panic
    | addr a =>
        match certs w !! a with
        | Some _ => Ok (tt, with_certs (<[a := c]> (certs w)) w)
        | None => Panic
        end
    end.

(** [p.F = v] through a pointer. *)
Definition update (p : ptr) (f : x509.Certificate -> x509.Certificate) : M unit :=
  c <- load p ;; store p (f c).

(** ** Profiles and the option pipeline *)

(** Modelled from the spec: the role tag of a profile. The Go structs [Root],
    [Intermediate] and [Leaf] each embed [base], whose declaration is not
    among the sources; the spec gives one profile record with a role tag. *)
Inductive Role :=
| Root
| Intermediate
| Leaf.

(** Modelled from the spec: the [Profile] aggregate ([base] and the [Profile]
    interface are missing from the sources). The role and the two draft
    pointers are fixed when the profile is created: the capability set of the
    spec has a setter for keys only. The key fields of the profile are the
    mutable part and live in the [World]. *)
Record Profile := {
  role : Role;
  subjectDraft : ptr;
  issuerDraft : ptr
}.

(** Modelled from the spec: [WithOption], a function from the profile to
    success or an error, applied in place. An option may write the
    certificate objects and the key fields of the profile. *)
Definition WithOption := Profile -> M unit.

(** Modelled from the spec: the key accessors of a profile that the entry
    points call ([SubjectPrivateKey], [SetIssuerPrivateKey]) and those the
    construction routine needs. *)
Definition SubjectPublicKey (p : Profile) : M crypto.PublicKey :=
  fun w => Ok (subjectPublicKey w, w).

Definition SubjectPrivateKey (p : Profile) : M crypto.PrivateKey :=
  fun w => Ok (subjectPrivateKey w, w).

Definition SetSubjectPublicKey (p : Profile) (k : crypto.PublicKey) : M unit :=
  fun w => Ok (tt, with_subjectPublicKey k w).

Definition SetSubjectPrivateKey (p : Profile) (k : crypto.PrivateKey) : M unit :=
  fun w => Ok (tt, with_subjectPrivateKey k w).

Definition SetIssuerPrivateKey (p : Profile) (k : crypto.PrivateKey) : M unit :=
  fun w => Ok (tt, with_issuerPrivateKey k w).

(** Modelled from the spec: [WithPublicKey], the built-in option that
    substitutes the subject public key. *)
Definition WithPublicKey (pub : crypto.PublicKey) : WithOption :=
  fun p => SetSubjectPublicKey p pub.

(** Modelled from the spec: an option that overrides the common name of the
    subject draft (one of the identity-overriding options). *)
Definition WithCommonName (cn : string) : WithOption :=
  fun p =>
    update (subjectDraft p)
           (fun c => x509.set_Subject (pkix.with_CommonName cn (x509.Subject c)) c).

(** Modelled from the spec: the key-generation service, asked for a fresh
    pair; its failure is a construction error. *)
Definition generate : M (crypto.Key * crypto.Key) :=
  fun w =>
    match keygen w with
    | inl e => Err e
    | inr kp => Ok (kp, w)
    end.

(** Modelled from the spec: the option pipeline. The options run in the
    order of the list, each on the profile under construction; the first
    failure ends the run with that error. *)
Fixpoint applyOptions (p : Profile) (withOps : list WithOption) : M unit :=
  match withOps with
  | [] => ret tt
  | op :: rest => _ <- op p ;; applyOptions p rest
  end.

(** Modelled from the spec: [newProfile], the construction routine shared by
    every role (its file is not among the sources). A fresh profile object
    gets the subject and issuer drafts and the issuer key; then the options
    run; a key pair is generated afterwards when no option has set the
    subject public key. *)
Definition newProfile (r : Role) (sub iss : ptr) (issPriv : crypto.PrivateKey)
    (withOps : list WithOption) : M Profile :=
  let p := {| role := r; subjectDraft := sub; issuerDraft := iss |} in
  _ <- SetSubjectPublicKey p None ;;
  _ <- SetSubjectPrivateKey p None ;;
  _ <- SetIssuerPrivateKey p issPriv ;;
  _ <- applyOptions p withOps ;;
  pub <- SubjectPublicKey p ;;
  match pub with
  | Some _ => ret p
  | None =>
      kp <- generate ;;
      _ <- SetSubjectPublicKey p (Some (fst kp)) ;;
      _ <- SetSubjectPrivateKey p (Some (snd kp)) ;;
      ret p
  end.

(** [if err != nil { return nil, f(err) }] *)
Definition wrap {A} (f : error -> error) (m : M A) : M A :=
  fun w =>
    match m w with
    | Ok r => Ok r
    | Err e => Err (f e)
    | Panic => Panic
    end.

(** ** rootProfile.go *)

(** The vendor extended key usages that every template lists. *)
Definition oidSmartCardLogon : asn1.ObjectIdentifier := [1; 3; 6; 1; 4; 1; 311; 20; 2; 2].
Definition oidDocumentSigning : asn1.ObjectIdentifier := [1; 3; 6; 1; 4; 1; 311; 10; 3; 12].
Definition oidDocumentEncryption : asn1.ObjectIdentifier := [1; 3; 6; 1; 4; 1; 311; 80; 1].

(** The policy identifiers. *)
Definition oidAllIssuancePolicies : asn1.ObjectIdentifier := [2; 5; 29; 32; 0].
Definition oidExtendedValidation : asn1.ObjectIdentifier := [2; 23; 140; 1; 1].
Definition oidEVCodeSigning : asn1.ObjectIdentifier := [2; 23; 140; 1; 3].

Definition DefaultRootCertValidity : time.Duration := time.Hour * 24 * 365 * 10.

Definition defaultRootTemplate (cn : string) : M ptr :=
  notBefore <- time_Now ;;
  new {| x509.IsCA := true;
         x509.NotBefore := notBefore;
         x509.NotAfter := time.Add notBefore DefaultRootCertValidity;
         x509.PolicyIdentifiers := [];
         x509.KeyUsage_ :=
           Z.lor (Z.lor (Z.lor x509.KeyUsageDigitalSignature
                               x509.KeyUsageKeyEncipherment)
                        x509.KeyUsageCertSign)
                 x509.KeyUsageCRLSign;
         x509.ExtKeyUsage_ :=
           [ x509.ExtKeyUsageAny;
             x509.ExtKeyUsageServerAuth;
             x509.ExtKeyUsageClientAuth;
             x509.ExtKeyUsageCodeSigning;
             x509.ExtKeyUsageEmailProtection;
             x509.ExtKeyUsageTimeStamping ];
         x509.UnknownExtKeyUsage :=
           [ oidSmartCardLogon; oidDocumentSigning; oidDocumentEncryption ];
         x509.BasicConstraintsValid := true;
         x509.MaxPathLen := 1;
         x509.MaxPathLenZero := false;
         x509.Issuer := pkix.Name_CommonName cn;
         x509.Subject := pkix.Name_CommonName cn;
         x509.PublicKey := None;
         x509.ExtraExtensions := [];
         x509.DNSNames := [];
         x509.EmailAddresses := [];
         x509.IPAddresses := [];
         x509.URIs := [] |}.

Definition NewRootProfileWithTemplate (crt : ptr) (withOps : list WithOption)
    : M Profile :=
  p <- wrap WithStack (newProfile Root crt crt None withOps) ;;
  (* self-signed certificate *)
  k <- SubjectPrivateKey p ;;
  _ <- SetIssuerPrivateKey p k ;;
  ret p.

Definition NewRootProfile (name : string) (withOps : list WithOption)
    : M Profile :=
  crt <- defaultRootTemplate name ;;
  NewRootProfileWithTemplate crt withOps.

(** ** The intermediate profile: part_000 (two documents) and part_001

    The three copies declare the same validity, the same [DefaultDuration]
    and the same [NewIntermediateProfile]; only the default template
    differs. *)

Definition DefaultIntermediateCertValidity : time.Duration :=
  time.Hour * 24 * 365 * 10.

Module part_000.
Definition defaultIntermediateTemplate (name : string) : M ptr :=
  notBefore <- time_Now ;;
  new {| x509.IsCA := true;
         x509.NotBefore := notBefore;
         x509.NotAfter := time.Add notBefore DefaultIntermediateCertValidity;
         x509.PolicyIdentifiers :=
           [ oidAllIssuancePolicies; oidExtendedValidation; oidEVCodeSigning ];
         x509.KeyUsage_ :=
           Z.lor (Z.lor (Z.lor x509.KeyUsageDigitalSignature
                               x509.KeyUsageKeyEncipherment)
                        x509.KeyUsageCertSign)
                 x509.KeyUsageCRLSign;
         x509.ExtKeyUsage_ :=
           [ x509.ExtKeyUsageServerAuth;
             x509.ExtKeyUsageClientAuth;
             x509.ExtKeyUsageCodeSigning;
             x509.ExtKeyUsageEmailProtection;
             x509.ExtKeyUsageTimeStamping ];
         x509.UnknownExtKeyUsage :=
           [ oidSmartCardLogon; oidDocumentSigning; oidDocumentEncryption ];
         x509.BasicConstraintsValid := true;
         x509.MaxPathLen := 0;
         x509.MaxPathLenZero := true;
         x509.Issuer := pkix.Name_CommonName name;
         x509.Subject := pkix.Name_CommonName name;
         x509.PublicKey := None;
         x509.ExtraExtensions := [];
         x509.DNSNames := [];
         x509.EmailAddresses := [];
         x509.IPAddresses := [];
         x509.URIs := [] |}.
End part_000.

(** The second document of part_000. *)
Module part_000_related.
Definition defaultIntermediateTemplate (name : string) : M ptr :=
  notBefore <- time_Now ;;
  new {| x509.IsCA := true;
         x509.NotBefore := notBefore;
         x509.NotAfter := time.Add notBefore DefaultIntermediateCertValidity;
         x509.PolicyIdentifiers := [ oidAllIssuancePolicies ];
         x509.KeyUsage_ :=
           Z.lor (Z.lor x509.KeyUsageDigitalSignature x509.KeyUsageCertSign)
                 x509.KeyUsageCRLSign;
         x509.ExtKeyUsage_ :=
           [ x509.ExtKeyUsageServerAuth;
             x509.ExtKeyUsageClientAuth;
             x509.ExtKeyUsageCodeSigning;
             x509.ExtKeyUsageEmailProtection;
             x509.ExtKeyUsageTimeStamping ];
         x509.UnknownExtKeyUsage := [];
         x509.BasicConstraintsValid := true;
         x509.MaxPathLen := 0;
         x509.MaxPathLenZero := true;
         x509.Issuer := pkix.Name_CommonName name;
         x509.Subject := pkix.Name_CommonName name;
         x509.PublicKey := None;
         x509.ExtraExtensions := [];
         x509.DNSNames := [];
         x509.EmailAddresses := [];
         x509.IPAddresses := [];
         x509.URIs := [] |}.
End part_000_related.

Module part_001.
Definition defaultIntermediateTemplate (name : string) : M ptr :=
  notBefore <- time_Now ;;
  new {| x509.IsCA := true;
         x509.NotBefore := notBefore;
         x509.NotAfter := time.Add notBefore DefaultIntermediateCertValidity;
         x509.PolicyIdentifiers := [];
         x509.KeyUsage_ :=
           Z.lor (Z.lor (Z.lor x509.KeyUsageDigitalSignature
                               x509.KeyUsageKeyEncipherment)
                        x509.KeyUsageCertSign)
                 x509.KeyUsageCRLSign;
         x509.ExtKeyUsage_ :=
           [ x509.ExtKeyUsageAny;
             x509.ExtKeyUsageServerAuth;
             x509.ExtKeyUsageClientAuth;
             x509.ExtKeyUsageCodeSigning;
             x509.ExtKeyUsageEmailProtection;
             x509.ExtKeyUsageTimeStamping ];
         x509.UnknownExtKeyUsage :=
           [ oidSmartCardLogon; oidDocumentSigning; oidDocumentEncryption ];
         x509.BasicConstraintsValid := true;
         x509.MaxPathLen := 0;
         x509.MaxPathLenZero := true;
         x509.Issuer := pkix.Name_CommonName name;
         x509.Subject := pkix.Name_CommonName name;
         x509.PublicKey := None;
         x509.ExtraExtensions := [];
         x509.DNSNames := [];
         x509.EmailAddresses := [];
         x509.IPAddresses := [];
         x509.URIs := [] |}.
End part_001.

(** Which copy of the intermediate template a construction uses. *)
Inductive Copy :=
| in_part_000
| in_part_000_related
| in_part_001.

Definition defaultIntermediateTemplate (v : Copy) (name : string) : M ptr :=
  match v with
  | in_part_000 => part_000.defaultIntermediateTemplate name
  | in_part_000_related => part_000_related.defaultIntermediateTemplate name
  | in_part_001 => part_001.defaultIntermediateTemplate name
  end.

Definition NewIntermediateProfile (v : Copy) (name : string) (iss : ptr)
    (issPriv : crypto.PrivateKey) (withOps : list WithOption) : M Profile :=
  sub <- defaultIntermediateTemplate v name ;;
  newProfile Intermediate sub iss issPriv withOps.

(** ** The leaf profile: part_002 *)

Section Profiles.

(** [DefaultCertValidity] is declared in a file that is not among the
    sources; the leaf template only adds it to the clock reading, so it is
    taken as a parameter of the leaf entry points and of everything stated
    about them. *)
Variable DefaultCertValidity : time.Duration.

Definition defaultLeafTemplate (sub iss : pkix.Name) : M ptr :=
  notBefore <- time_Now ;;
  new {| x509.IsCA := false;
         x509.NotBefore := notBefore;
         x509.NotAfter := time.Add notBefore DefaultCertValidity;
         x509.PolicyIdentifiers :=
           [ oidAllIssuancePolicies; oidExtendedValidation; oidEVCodeSigning ];
         x509.KeyUsage_ :=
           Z.lor x509.KeyUsageDigitalSignature x509.KeyUsageKeyEncipherment;
         x509.ExtKeyUsage_ :=
           [ x509.ExtKeyUsageServerAuth;
             x509.ExtKeyUsageClientAuth;
             x509.ExtKeyUsageCodeSigning;
             x509.ExtKeyUsageEmailProtection;
             x509.ExtKeyUsageTimeStamping ];
         x509.UnknownExtKeyUsage :=
           [ oidSmartCardLogon; oidDocumentSigning; oidDocumentEncryption ];
         x509.BasicConstraintsValid := false;
         x509.MaxPathLen := 0;
         x509.MaxPathLenZero := false;
         x509.Issuer := iss;
         x509.Subject := sub;
         x509.PublicKey := None;
         x509.ExtraExtensions := [];
         x509.DNSNames := [];
         x509.EmailAddresses := [];
         x509.IPAddresses := [];
         x509.URIs := [] |}.

Definition NewLeafProfileWithTemplate (sub iss : ptr)
    (issPriv : crypto.PrivateKey) (withOps : list WithOption) : M Profile :=
  s <- load sub ;;
  let withOps := withOps ++ [WithPublicKey (x509.PublicKey s)] in
  newProfile Leaf sub iss issPriv withOps.

Definition NewLeafProfile (cn : string) (iss : ptr)
    (issPriv : crypto.PrivateKey) (withOps : list WithOption) : M Profile :=
  i <- load iss ;;
  sub <- defaultLeafTemplate (pkix.Name_CommonName cn) (x509.Subject i) ;;
  newProfile Leaf sub iss issPriv withOps.

Definition NewSelfSignedLeafProfile (cn : string)
    (withOps : list WithOption) : M Profile :=
  sub <- defaultLeafTemplate (pkix.Name_CommonName cn) (pkix.Name_CommonName cn) ;;
  p <- newProfile Leaf sub sub None withOps ;;
  (* self-signed certificate *)
  k <- SubjectPrivateKey p ;;
  _ <- SetIssuerPrivateKey p k ;;
  ret p.

(** The request is only read, so it is passed as the record the pointer
    refers to. *)
Definition NewLeafProfileWithCSR (csr : x509.CertificateRequest) (iss : ptr)
    (issPriv : crypto.PrivateKey) (withOps : list WithOption) : M Profile :=
  match x509.csrPublicKey csr with
  | None => fail (Errorf "CSR must have PublicKey")
  | Some _ =>
      i <- load iss ;;
      sub <- defaultLeafTemplate (x509.csrSubject csr) (x509.Subject i) ;;
      _ <- update sub (x509.set_ExtraExtensions (x509.csrExtensions csr)) ;;
      _ <- update sub (x509.set_DNSNames (x509.csrDNSNames csr)) ;;
      _ <- update sub (x509.set_EmailAddresses (x509.csrEmailAddresses csr)) ;;
      _ <- update sub (x509.set_IPAddresses (x509.csrIPAddresses csr)) ;;
      _ <- update sub (x509.set_URIs (x509.csrURIs csr)) ;;
      let withOps := withOps ++ [WithPublicKey (x509.csrPublicKey csr)] in
      newProfile Leaf sub iss issPriv withOps
  end.

(** [DefaultDuration]: the methods of [Root] and [Intermediate] are in the
    sources. Modelled from the spec: the method of [Leaf], which comes from
    [base], returns [DefaultCertValidity]. *)
Definition DefaultDuration (p : Profile) : time.Duration :=
  match role p with
  | Root => DefaultRootCertValidity
  | Intermediate => DefaultIntermediateCertValidity
  | Leaf => DefaultCertValidity
  end.

(** The entry points of the package, each with its arguments apart from
    the options. *)
Inductive EntryPoint :=
| RootFromName (name : string)
| RootFromTemplate (crt : ptr)
| IntermediateFromName (v : Copy) (name : string) (iss : ptr)
    (issPriv : crypto.PrivateKey)
| LeafFromTemplate (sub iss : ptr) (issPriv : crypto.PrivateKey)
| LeafFromName (cn : string) (iss : ptr) (issPriv : crypto.PrivateKey)
| LeafSelfSigned (cn : string)
| LeafFromCSR (csr : x509.CertificateRequest) (iss : ptr)
    (issPriv : crypto.PrivateKey).

Definition construct (e : EntryPoint) (withOps : list WithOption) : M Profile :=
  match e with
  | RootFromName name => NewRootProfile name withOps
  | RootFromTemplate crt => NewRootProfileWithTemplate crt withOps
  | IntermediateFromName v name iss issPriv =>
      NewIntermediateProfile v name iss issPriv withOps
  | LeafFromTemplate sub iss issPriv =>
      NewLeafProfileWithTemplate sub iss issPriv withOps
  | LeafFromName cn iss issPriv => NewLeafProfile cn iss issPriv withOps
  | LeafSelfSigned cn => NewSelfSignedLeafProfile cn withOps
  | LeafFromCSR csr iss issPriv => NewLeafProfileWithCSR csr iss issPriv withOps
  end.

(** The entry points that start from the default template of the role. *)
Definition fromDefaultTemplate (e : EntryPoint) : bool :=
  match e with
  | RootFromTemplate _ | LeafFromTemplate _ _ _ => false
  | _ => true
  end.

(** ** Reading a constructed profile *)

(** The certificate object a pointer refers to, if any. *)
Definition deref (p : ptr) (w : World) : option x509.Certificate :=
  match p with
  | null => None
  | addr a => certs w !! a
  end.

(** A field of the subject draft of a profile. *)
Definition subjectField {A} (f : x509.Certificate -> A) (p : Profile)
    (w : World) : option A :=
  f <$> deref (subjectDraft p) w.

(** An option leaves an observation of the profile as it found it. *)
Definition keeps {A} (obs : Profile -> World -> A) (op : WithOption) : Prop :=
  forall p w w', op p w = Ok (tt, w') -> obs p w' = obs p w.


(** The validity window of a certificate, [NotAfter - NotBefore]. *)
Definition validity (c : x509.Certificate) : time.Duration :=
  x509.NotAfter c - x509.NotBefore c.

(** The certificate object that a template function allocates. *)
Definition built (m : M ptr) (w : World) : option x509.Certificate :=
  match m w with
  | Ok (p, w') => deref p w'
  | _ => None
  end.

(** What a caller reads from the result of an entry point. *)
Definition observe {A} (obs : Profile -> World -> A)
    (r : Result (Profile * World)) : option A :=
  match r with
  | Ok (p, w) => Some (obs p w)
  | _ => None
  end.

(** The key fields of a profile object that [newProfile] has just set up. *)
Definition freshKeys (issPriv : crypto.PrivateKey) (w : World) : World :=
  with_issuerPrivateKey issPriv
    (with_subjectPrivateKey None (with_subjectPublicKey None w)).

(** The entry points that sign the profile with its own key. *)
Definition selfSigned (e : EntryPoint) : bool :=
  match e with
  | RootFromName _ | RootFromTemplate _ | LeafSelfSigned _ => true
  | _ => false
  end.

(** An observation that reads the certificate objects only. *)
Definition draftOnly {A} (obs : Profile -> World -> A) : Prop :=
  forall p w w', certs w = certs w' -> obs p w = obs p w'.

(** Every field of a certificate apart from the path-length fields and the
    policy identifiers. *)
Definition outsidePathLenAndPolicies (c : x509.Certificate) :=
  (x509.IsCA c, x509.NotBefore c, x509.NotAfter c, x509.KeyUsage_ c,
   x509.ExtKeyUsage_ c, x509.UnknownExtKeyUsage c,
   x509.BasicConstraintsValid c, x509.Issuer c, x509.Subject c,
   x509.PublicKey c, x509.ExtraExtensions c, x509.DNSNames c,
   x509.EmailAddresses c, x509.IPAddresses c, x509.URIs c).

(** The CA flag and the path-length fields of a certificate. *)
Definition caConstraints (c : x509.Certificate) : bool * bool * Z * bool :=
  (x509.IsCA c, x509.BasicConstraintsValid c, x509.MaxPathLen c,
   x509.MaxPathLenZero c).

(** The fields of a draft that a request fills. *)
Definition requestFields (c : x509.Certificate) :=
  (x509.Subject c, x509.DNSNames c, x509.EmailAddresses c, x509.IPAddresses c,
   x509.URIs c, x509.ExtraExtensions c).

(** Every field of a certificate apart from the five that a request fills
    besides the subject: the alternative names and the extra extensions. *)
Definition outsideAlternativeNames (c : x509.Certificate) :=
  (x509.IsCA c, x509.NotBefore c, x509.NotAfter c, x509.PolicyIdentifiers c,
   x509.KeyUsage_ c, x509.ExtKeyUsage_ c, x509.UnknownExtKeyUsage c,
   x509.BasicConstraintsValid c, x509.MaxPathLen c, x509.MaxPathLenZero c,
   x509.Issuer c, x509.Subject c, x509.PublicKey c).

(** The alternative names, the extra extensions and the public key of a
    certificate. *)
Definition namesAndKey (c : x509.Certificate) :=
  (x509.DNSNames c, x509.EmailAddresses c, x509.IPAddresses c, x509.URIs c,
   x509.ExtraExtensions c, x509.PublicKey c).

(** A request that carries a common name and a public key and nothing
    else. *)
Definition bareRequest (cn : string) (k : crypto.Key) : x509.CertificateRequest :=
  {| x509.csrSubject := pkix.Name_CommonName cn;
     x509.csrPublicKey := Some k;
     x509.csrExtensions := [];
     x509.csrDNSNames := [];
     x509.csrEmailAddresses := [];
     x509.csrIPAddresses := [];
     x509.csrURIs := [] |}.

(** The draft that [NewLeafProfileWithCSR] fills in from a request. *)
Definition draftOfRequest (csr : x509.CertificateRequest)
    (c0 : x509.Certificate) : x509.Certificate :=
  x509.set_URIs (x509.csrURIs csr)
    (x509.set_IPAddresses (x509.csrIPAddresses csr)
       (x509.set_EmailAddresses (x509.csrEmailAddresses csr)
          (x509.set_DNSNames (x509.csrDNSNames csr)
             (x509.set_ExtraExtensions (x509.csrExtensions csr) c0)))).

(** The certificate a template entry point is given. *)
Definition templateOf (e : EntryPoint) : ptr :=
  match e with
  | RootFromTemplate crt => crt
  | LeafFromTemplate sub _ _ => sub
  | _ => null
  end.






(** ** Concrete inputs *)

(** Options a caller may write: they overwrite a field of the subject draft,
    or set the issuer key. *)
Definition overwriteDNSNames (names : list string) : WithOption :=
  fun p => update (subjectDraft p) (x509.set_DNSNames names).

Definition overwriteIssuerKey (k : crypto.Key) : WithOption :=
  fun p => SetIssuerPrivateKey p (Some k).

(** A world with no certificate yet, and a key service that answers. *)
Definition emptyWorld : World :=
  {| certs := [];
     clock := 1700000000 * time.Second;
     keygen := inr (crypto.key 1, crypto.key 2);
     subjectPublicKey := None;
     subjectPrivateKey := None;
     issuerPrivateKey := None |}.

(** A CA certificate that was issued for one hour, with a public key. *)
Definition issuingCA : x509.Certificate :=
  {| x509.IsCA := true;
     x509.NotBefore := 0;
     x509.NotAfter := time.Hour;
     x509.PolicyIdentifiers := [];
     x509.KeyUsage_ := Z.lor x509.KeyUsageCertSign x509.KeyUsageCRLSign;
     x509.ExtKeyUsage_ := [];
     x509.UnknownExtKeyUsage := [];
     x509.BasicConstraintsValid := true;
     x509.MaxPathLen := 1;
     x509.MaxPathLenZero := false;
     x509.Issuer := pkix.Name_CommonName "root-ca";
     x509.Subject := pkix.Name_CommonName "root-ca";
     x509.PublicKey := Some (crypto.key 7);
     x509.ExtraExtensions := [];
     x509.DNSNames := [];
     x509.EmailAddresses := [];
     x509.IPAddresses := [];
     x509.URIs := [] |}.

(** A world in which that certificate is the object at address 0. *)
Definition worldWithCA : World := with_certs [issuingCA] emptyWorld.



(** The same draft with no public key in it. *)
Definition keylessDraft : x509.Certificate :=
  {| x509.IsCA := false;
     x509.NotBefore := 0;
     x509.NotAfter := time.Hour;
     x509.PolicyIdentifiers := [];
     x509.KeyUsage_ := x509.KeyUsageDigitalSignature;
     x509.ExtKeyUsage_ := [x509.ExtKeyUsageServerAuth];
     x509.UnknownExtKeyUsage := [];
     x509.BasicConstraintsValid := false;
     x509.MaxPathLen := 0;
     x509.MaxPathLenZero := false;
     x509.Issuer := pkix.Name_CommonName "root-ca";
     x509.Subject := pkix.Name_CommonName "svc";
     x509.PublicKey := None;
     x509.ExtraExtensions := [];
     x509.DNSNames := ["svc.example"];
     x509.EmailAddresses := [];
     x509.IPAddresses := [];
     x509.URIs := [] |}.

(** A request for two DNS names, with a public key, and one without a key. *)
Definition requestAB : x509.CertificateRequest :=
  {| x509.csrSubject := pkix.Name_CommonName "svc";
     x509.csrPublicKey := Some (crypto.key 5);
     x509.csrExtensions :=
       [ {| pkix.Id := [2; 5; 29; 17]; pkix.Critical := false;
            pkix.ExtValue := [48; 0] |} ];
     x509.csrDNSNames := ["a.example"; "b.example"];
     x509.csrEmailAddresses := ["ops@a.example"];
     x509.csrIPAddresses := [[10; 0; 0; 1]];
     x509.csrURIs := ["spiffe://a.example/svc"] |}.

Definition requestWithoutKey : x509.CertificateRequest :=
  {| x509.csrSubject := pkix.Name_CommonName "svc";
     x509.csrPublicKey := None;
     x509.csrExtensions := [];
     x509.csrDNSNames := ["a.example"; "b.example"];
     x509.csrEmailAddresses := [];
     x509.csrIPAddresses := [];
     x509.csrURIs := [] |}.

(** A value for the [DefaultCertValidity] parameter in concrete runs. *)
Definition oneDay : time.Duration := 24 * time.Hour.

(** ** Running a construction *)

Lemma bind_Ok {A B} (m : M A) (k : A -> M B) w r :
  bind m k w = Ok r -> exists a w1, m w = Ok (a, w1) /\ k a w1 = Ok r.
Proof.
  unfold bind. destruct (m w) as [[a w1]| |]; [eauto | discriminate..].
Qed.

Lemma bind_run {A B} (m : M A) (k : A -> M B) w a w1 :
  m w = Ok (a, w1) -> bind m k w = k a w1.
Proof. intros E. unfold bind. now rewrite E. Qed.

Lemma wrap_Ok {A} f (m : M A) w r : wrap f m w = Ok r -> m w = Ok r.
Proof. unfold wrap. destruct (m w); congruence. Qed.


Lemma applyOptions_keeps {A} (obs : Profile -> World -> A) p ops :
  Forall (keeps obs) ops ->
  forall w w', applyOptions p ops w = Ok (tt, w') -> obs p w' = obs p w.
Proof.
  induction 1 as [|op ops Hop _ IH]; intros w w' E; simpl in E.
  - inversion E. reflexivity.
  - apply bind_Ok in E. destruct E as ([] & w1 & E1 & E2).
    rewrite (IH _ _ E2). exact (Hop _ _ _ E1).
Qed.


(** What a successful [newProfile] did: it ran the options on a profile
    with fresh key fields, and then touched the subject keys only, and only
    when the options left no public key. *)
Lemma newProfile_Ok r sub iss issPriv ops w p w' :
  newProfile r sub iss issPriv ops w = Ok (p, w') ->
  p = {| role := r; subjectDraft := sub; issuerDraft := iss |} /\
  exists w1,
    applyOptions p ops (freshKeys issPriv w) = Ok (tt, w1) /\
    certs w' = certs w1 /\
    issuerPrivateKey w' = issuerPrivateKey w1 /\
    (forall k, subjectPublicKey w1 = Some k -> w' = w1).
Proof.
  unfold newProfile. intros E.
  set (p0 := {| role := r; subjectDraft := sub; issuerDraft := iss |}) in *.
  unfold bind at 1 2 3 in E. simpl in E.
  apply bind_Ok in E. destruct E as ([] & w1 & E1 & E).
  unfold bind at 1 in E. simpl in E.
  destruct (subjectPublicKey w1) as [k|] eqn:Hk.
  - inversion E; subst. split; [reflexivity|].
    exists w'. repeat split; auto.
  - unfold bind, generate in E. simpl in E.
    destruct (keygen w1) as [e|[pub priv]]; [discriminate|].
    simpl in E. inversion E; subst. split; [reflexivity|].
    exists w1. repeat split; auto. intros k Hk'. congruence.
Qed.

Lemma subjectField_draftOnly {A} (f : x509.Certificate -> A) :
  draftOnly (subjectField f).
Proof.
  intros p w w' E. unfold subjectField, deref.
  destruct (subjectDraft p); [reflexivity | now rewrite E].
Qed.

Lemma WithPublicKey_keeps {A} (obs : Profile -> World -> A) k :
  draftOnly obs -> keeps obs (WithPublicKey k).
Proof.
  intros Hd p w w' E. inversion E; subst. symmetry. now apply Hd.
Qed.

Lemma newProfile_keeps {A} (obs : Profile -> World -> A)
    r sub iss issPriv ops w p w' :
  draftOnly obs ->
  Forall (keeps obs) ops ->
  newProfile r sub iss issPriv ops w = Ok (p, w') ->
  obs p w' = obs p w.
Proof.
  intros Hd Hk E. apply newProfile_Ok in E.
  destruct E as (_ & w1 & E1 & Hc & _).
  rewrite (Hd p w' w1 Hc).
  rewrite (applyOptions_keeps obs p ops Hk _ _ E1).
  now apply Hd.
Qed.


(** The self-signing step that follows [newProfile] in the root and the
    self-signed leaf entry points. *)
Lemma selfSign_Ok (m : M Profile) w p w' :
  (p <- m ;; k <- SubjectPrivateKey p ;; _ <- SetIssuerPrivateKey p k ;; ret p) w
    = Ok (p, w') ->
  exists w1, m w = Ok (p, w1) /\
             w' = with_issuerPrivateKey (subjectPrivateKey w1) w1.
Proof.
  intros E. apply bind_Ok in E. destruct E as (p1 & w1 & E1 & E).
  unfold bind, SubjectPrivateKey, SetIssuerPrivateKey, ret in E. simpl in E.
  inversion E; subst. eauto.
Qed.

(** ** C1: self-signed profiles *)

(** C1. A profile returned by [NewRootProfile], [NewRootProfileWithTemplate]
    or [NewSelfSignedLeafProfile] has one certificate object as both its
    issuer draft and its subject draft, and its issuer private key is its
    subject private key. The key is assigned after the construction routine
    has run every option: the final world is the one [newProfile] returned,
    with the issuer key overwritten by the subject key found there. *)
Theorem self_signed_shares_draft_and_key e ops w p w' :
  selfSigned e = true ->
  construct e ops w = Ok (p, w') ->
  issuerDraft p = subjectDraft p /\
  issuerPrivateKey w' = subjectPrivateKey w' /\
  exists w0 w1,
    newProfile (role p) (subjectDraft p) (subjectDraft p) None ops w0
      = Ok (p, w1) /\
    w' = with_issuerPrivateKey (subjectPrivateKey w1) w1.
Proof.
  intros Hs E.
  assert (exists r sub w0 w1,
             newProfile r sub sub None ops w0 = Ok (p, w1) /\
             w' = with_issuerPrivateKey (subjectPrivateKey w1) w1)
    as (r & sub & w0 & w1 & E1 & ->).
  { destruct e; simpl in Hs, E; try discriminate.
    - unfold NewRootProfile in E.
      apply bind_Ok in E. destruct E as (crt & w0 & _ & E).
      apply selfSign_Ok in E. destruct E as (w1 & E & ->).
      apply wrap_Ok in E. eauto 6.
    - apply selfSign_Ok in E. destruct E as (w1 & E & ->).
      apply wrap_Ok in E. eauto 6.
    - unfold NewSelfSignedLeafProfile in E.
      apply bind_Ok in E. destruct E as (sub & w0 & _ & E).
      apply selfSign_Ok in E. destruct E as (w1 & E & ->). eauto 6. }
  destruct (newProfile_Ok _ _ _ _ _ _ _ _ E1) as (-> & _).
  simpl. repeat split; eauto.
Qed.

(** ** An option that sets the common name *)


(** ** Allocation and field updates *)

Lemma new_Ok c w sub w0 :
  new c w = Ok (sub, w0) ->
  deref sub w0 = Some c /\ sub = addr (length (certs w)).
Proof.
  unfold new. intros E. inversion E; subst. simpl.
  split; [apply list_lookup_middle|]; reflexivity.
Qed.

Lemma update_Ok sub f w w' c :
  deref sub w = Some c ->
  update sub f w = Ok (tt, w') ->
  deref sub w' = Some (f c).
Proof.
  unfold update, deref. intros Hc E.
  apply bind_Ok in E. destruct E as (c1 & w1 & E1 & E2).
  unfold load in E1. unfold store in E2.
  destruct sub as [|a]; [discriminate|].
  rewrite Hc in E1. inversion E1; subst. rewrite Hc in E2.
  inversion E2; subst. simpl.
  apply list_lookup_insert_eq. now apply lookup_lt_Some in Hc.
Qed.

Lemma update_total sub f w c :
  deref sub w = Some c -> exists w', update sub f w = Ok (tt, w').
Proof.
  unfold update, deref, bind, load, store. intros Hc.
  destruct sub as [|a]; [discriminate|]. rewrite Hc. simpl. rewrite Hc. eauto.
Qed.

(** With no option to run, [newProfile] asks the key service and returns. *)
Lemma newProfile_no_options r sub iss issPriv w pub priv :
  keygen w = inr (pub, priv) ->
  newProfile r sub iss issPriv [] w
  = Ok ({| role := r; subjectDraft := sub; issuerDraft := iss |},
        with_subjectPrivateKey (Some priv)
          (with_subjectPublicKey (Some pub) (freshKeys issPriv w))).
Proof.
  intros Hk. unfold newProfile, bind, generate. simpl. rewrite Hk. reflexivity.
Qed.

(** ** C3: a request without a public key *)

(** C3. [NewLeafProfileWithCSR] on a request whose public key is nil returns
    the error "CSR must have PublicKey" (the spec's MissingPublicKey),
    whatever the issuer, the options and the world are; the caller gets no
    profile. *)
Theorem csr_without_public_key_is_rejected csr iss issPriv ops w :
  x509.csrPublicKey csr = None ->
  NewLeafProfileWithCSR csr iss issPriv ops w
    = Err (Errorf "CSR must have PublicKey") /\
  observe (fun p _ => p) (NewLeafProfileWithCSR csr iss issPriv ops w) = None.
Proof.
  intros Hk. unfold NewLeafProfileWithCSR. rewrite Hk. split; reflexivity.
Qed.

(** ** C4: the root template *)

Lemma defaultRootTemplate_built cn w :
  built (defaultRootTemplate cn) w =
  Some {| x509.IsCA := true;
          x509.NotBefore := clock w;
          x509.NotAfter := time.Add (clock w) DefaultRootCertValidity;
          x509.PolicyIdentifiers := [];
          x509.KeyUsage_ := 101;
          x509.ExtKeyUsage_ :=
            [ x509.ExtKeyUsageAny; x509.ExtKeyUsageServerAuth;
              x509.ExtKeyUsageClientAuth; x509.ExtKeyUsageCodeSigning;
              x509.ExtKeyUsageEmailProtection; x509.ExtKeyUsageTimeStamping ];
          x509.UnknownExtKeyUsage :=
            [ oidSmartCardLogon; oidDocumentSigning; oidDocumentEncryption ];
          x509.BasicConstraintsValid := true;
          x509.MaxPathLen := 1;
          x509.MaxPathLenZero := false;
          x509.Issuer := pkix.Name_CommonName cn;
          x509.Subject := pkix.Name_CommonName cn;
          x509.PublicKey := None;
          x509.ExtraExtensions := [];
          x509.DNSNames := [];
          x509.EmailAddresses := [];
          x509.IPAddresses := [];
          x509.URIs := [] |}.
Proof.
  unfold built, defaultRootTemplate, bind, time_Now, new, deref. simpl.
  rewrite list_lookup_middle; reflexivity.
Qed.


(** ** C5: the intermediate templates next to the root template *)

Lemma defaultIntermediateTemplate_built v name w :
  exists c,
    built (defaultIntermediateTemplate v name) w = Some c /\
    x509.IsCA c = true /\
    x509.BasicConstraintsValid c = true /\
    x509.MaxPathLen c = 0 /\
    x509.MaxPathLenZero c = true /\
    x509.NotBefore c = clock w /\
    x509.NotAfter c = clock w + DefaultIntermediateCertValidity.
Proof.
  destruct v; eexists;
    (split;
     [ unfold built, defaultIntermediateTemplate,
         part_000.defaultIntermediateTemplate,
         part_000_related.defaultIntermediateTemplate,
         part_001.defaultIntermediateTemplate, bind, time_Now, new, deref;
       simpl; rewrite list_lookup_middle; reflexivity
     | repeat split; reflexivity ]).
Qed.

(** C5, as the code has it. In every copy the intermediate template has the
    validity of the root template. The template of part_001 agrees with the
    root template on every field but the path-length fields: same key usages,
    same extended key usages with "any" first, same vendor OIDs. The template
    of part_000 (first document) has the key usages and the vendor OIDs of the
    root template, but its extended key usages are those of the root template
    without "any"; apart from that it differs in the path-length fields and
    the policy OIDs only. The second document of part_000 drops "any" as
    well, and also key encipherment and the vendor OIDs. *)
Theorem intermediate_template_against_root name w :
  exists r i0 i0' i1,
    built (defaultRootTemplate name) w = Some r /\
    built (part_000.defaultIntermediateTemplate name) w = Some i0 /\
    built (part_000_related.defaultIntermediateTemplate name) w = Some i0' /\
    built (part_001.defaultIntermediateTemplate name) w = Some i1 /\
    (* validity, in every copy *)
    validity i0 = validity r /\ validity i0' = validity r /\
    validity i1 = validity r /\
    (* part_001 *)
    outsidePathLenAndPolicies i1 = outsidePathLenAndPolicies r /\
    x509.PolicyIdentifiers i1 = x509.PolicyIdentifiers r /\
    (* part_000, first document *)
    x509.KeyUsage_ i0 = x509.KeyUsage_ r /\
    x509.UnknownExtKeyUsage i0 = x509.UnknownExtKeyUsage r /\
    x509.ExtKeyUsage_ r = x509.ExtKeyUsageAny :: x509.ExtKeyUsage_ i0 /\
    ~ In x509.ExtKeyUsageAny (x509.ExtKeyUsage_ i0) /\
    outsidePathLenAndPolicies (x509.set_ExtKeyUsage (x509.ExtKeyUsage_ r) i0)
      = outsidePathLenAndPolicies r /\
    x509.PolicyIdentifiers i0
      = [ oidAllIssuancePolicies; oidExtendedValidation; oidEVCodeSigning ] /\
    (* part_000, second document *)
    x509.KeyUsage_ i0' = x509.KeyUsage_ r - x509.KeyUsageKeyEncipherment /\
    x509.ExtKeyUsage_ r = x509.ExtKeyUsageAny :: x509.ExtKeyUsage_ i0' /\
    x509.UnknownExtKeyUsage i0' = [] /\
    x509.PolicyIdentifiers i0' = [ oidAllIssuancePolicies ] /\
    (* the path-length fields, in every copy *)
    Forall (fun i => x509.MaxPathLen i = 0 /\ x509.MaxPathLenZero i = true)
           [i0; i0'; i1] /\
    x509.MaxPathLen r = 1 /\ x509.MaxPathLenZero r = false.
Proof.
  do 4 eexists.
  split; [apply defaultRootTemplate_built|].
  do 3 (split;
        [ unfold built, part_000.defaultIntermediateTemplate,
            part_000_related.defaultIntermediateTemplate,
            part_001.defaultIntermediateTemplate, bind, time_Now, new, deref;
          simpl; rewrite list_lookup_middle; reflexivity |]).
  unfold validity, time.Add, DefaultIntermediateCertValidity,
    DefaultRootCertValidity. simpl.
  repeat split; try reflexivity; try lia.
  - intros H. repeat (destruct H as [H|H]; [discriminate|]). exact H.
  - repeat constructor.
Qed.

(** ** C7: the leaf template *)

Lemma defaultLeafTemplate_built sub iss w :
  built (defaultLeafTemplate sub iss) w =
  Some {| x509.IsCA := false;
          x509.NotBefore := clock w;
          x509.NotAfter := time.Add (clock w) DefaultCertValidity;
          x509.PolicyIdentifiers :=
            [ oidAllIssuancePolicies; oidExtendedValidation; oidEVCodeSigning ];
          x509.KeyUsage_ := 5;
          x509.ExtKeyUsage_ :=
            [ x509.ExtKeyUsageServerAuth; x509.ExtKeyUsageClientAuth;
              x509.ExtKeyUsageCodeSigning; x509.ExtKeyUsageEmailProtection;
              x509.ExtKeyUsageTimeStamping ];
          x509.UnknownExtKeyUsage :=
            [ oidSmartCardLogon; oidDocumentSigning; oidDocumentEncryption ];
          x509.BasicConstraintsValid := false;
          x509.MaxPathLen := 0;
          x509.MaxPathLenZero := false;
          x509.Issuer := iss;
          x509.Subject := sub;
          x509.PublicKey := None;
          x509.ExtraExtensions := [];
          x509.DNSNames := [];
          x509.EmailAddresses := [];
          x509.IPAddresses := [];
          x509.URIs := [] |}.
Proof.
  unfold built, defaultLeafTemplate, bind, time_Now, new, deref. simpl.
  rewrite list_lookup_middle; reflexivity.
Qed.

(** C7. Every leaf default template, whatever the two names and the clock
    are, is not a CA, asks for no path-length constraint (basic constraints
    not valid, path-length-zero flag off), and has exactly the key usages
    digital signature and key encipherment, so neither certificate signing
    nor CRL signing. *)
Theorem leaf_default_template sub iss w :
  exists c,
    built (defaultLeafTemplate sub iss) w = Some c /\
    x509.IsCA c = false /\
    x509.BasicConstraintsValid c = false /\
    x509.MaxPathLenZero c = false /\
    x509.pathLenConstraint c = None /\
    x509.KeyUsage_ c
      = x509.KeyUsageDigitalSignature + x509.KeyUsageKeyEncipherment /\
    List.filter (x509.hasKeyUsage (x509.KeyUsage_ c)) x509.allKeyUsages
      = [ x509.KeyUsageDigitalSignature; x509.KeyUsageKeyEncipherment ] /\
    x509.hasKeyUsage (x509.KeyUsage_ c) x509.KeyUsageCertSign = false /\
    x509.hasKeyUsage (x509.KeyUsage_ c) x509.KeyUsageCRLSign = false.
Proof.
  eexists. split; [apply defaultLeafTemplate_built|].
  repeat split; reflexivity.
Qed.

(** ** What the construction routine hands back *)

Lemma built_Ok (m : M ptr) w sub w0 :
  m w = Ok (sub, w0) -> built m w = deref sub w0.
Proof. intros E. unfold built. now rewrite E. Qed.

(** A field of the subject draft survives [newProfile] when no option
    writes it. *)
Lemma newProfile_subject_field {A} (f : x509.Certificate -> A)
    r sub iss issPriv ops w p w' c :
  deref sub w = Some c ->
  Forall (keeps (subjectField f)) ops ->
  newProfile r sub iss issPriv ops w = Ok (p, w') ->
  subjectField f p w' = Some (f c).
Proof.
  intros Hc Hk E.
  rewrite (newProfile_keeps (subjectField f) _ _ _ _ _ _ _ _
             (subjectField_draftOnly f) Hk E).
  apply newProfile_Ok in E. destruct E as (-> & _).
  unfold subjectField. simpl. now rewrite Hc.
Qed.

Lemma NewLeafProfileWithCSR_Ok csr iss issPriv ops w p w' :
  NewLeafProfileWithCSR csr iss issPriv ops w = Ok (p, w') ->
  exists k i c0 sub w0,
    x509.csrPublicKey csr = Some k /\
    deref iss w = Some i /\
    built (defaultLeafTemplate (x509.csrSubject csr) (x509.Subject i)) w
      = Some c0 /\
    deref sub w0 = Some (draftOfRequest csr c0) /\
    newProfile Leaf sub iss issPriv (ops ++ [WithPublicKey (Some k)]) w0
      = Ok (p, w').
Proof.
  unfold NewLeafProfileWithCSR. intros E.
  destruct (x509.csrPublicKey csr) as [k|]; [|discriminate].
  apply bind_Ok in E. destruct E as (i & w0 & Ei & E).
  assert (w0 = w /\ deref iss w = Some i) as (-> & Hi).
  { unfold load in Ei. unfold deref. destruct iss as [|a]; [discriminate|].
    destruct (certs w !! a); inversion Ei; subst; auto. }
  apply bind_Ok in E. destruct E as (sub & w1 & Et & E).
  pose proof (built_Ok _ _ _ _ Et) as Hb.
  rewrite defaultLeafTemplate_built in Hb. symmetry in Hb.
  apply bind_Ok in E. destruct E as ([] & w2 & E2 & E).
  pose proof (update_Ok _ _ _ _ _ Hb E2) as H2.
  apply bind_Ok in E. destruct E as ([] & w3 & E3 & E).
  pose proof (update_Ok _ _ _ _ _ H2 E3) as H3.
  apply bind_Ok in E. destruct E as ([] & w4 & E4 & E).
  pose proof (update_Ok _ _ _ _ _ H3 E4) as H4.
  apply bind_Ok in E. destruct E as ([] & w5 & E5 & E).
  pose proof (update_Ok _ _ _ _ _ H4 E5) as H5.
  apply bind_Ok in E. destruct E as ([] & w6 & E6 & E).
  pose proof (update_Ok _ _ _ _ _ H5 E6) as H6.
  exists k, i. eexists. exists sub, w6.
  split; [reflexivity|]. split; [exact Hi|].
  split; [apply defaultLeafTemplate_built|].
  split; [exact H6 | exact E].
Qed.

(** With a key in the request, a live issuer and no option, the call
    succeeds. *)
Lemma NewLeafProfileWithCSR_total csr iss issPriv w k i :
  x509.csrPublicKey csr = Some k ->
  deref iss w = Some i ->
  exists p w', NewLeafProfileWithCSR csr iss issPriv [] w = Ok (p, w').
Proof.
  intros Hk Hi. unfold NewLeafProfileWithCSR. rewrite Hk.
  assert (load iss w = Ok (i, w)) as Ei.
  { unfold load. unfold deref in Hi. destruct iss; [discriminate|].
    now rewrite Hi. }
  rewrite (bind_run _ _ _ _ _ Ei).
  destruct (defaultLeafTemplate (x509.csrSubject csr) (x509.Subject i) w)
    as [[sub w1]| |] eqn:Et; try discriminate.
  rewrite (bind_run _ _ _ _ _ Et).
  pose proof (built_Ok _ _ _ _ Et) as Hb.
  rewrite defaultLeafTemplate_built in Hb. symmetry in Hb.
  destruct (update_total sub (x509.set_ExtraExtensions (x509.csrExtensions csr))
              _ _ Hb) as (w2 & E2).
  rewrite (bind_run _ _ _ _ _ E2). pose proof (update_Ok _ _ _ _ _ Hb E2) as H2.
  destruct (update_total sub (x509.set_DNSNames (x509.csrDNSNames csr))
              _ _ H2) as (w3 & E3).
  rewrite (bind_run _ _ _ _ _ E3). pose proof (update_Ok _ _ _ _ _ H2 E3) as H3.
  destruct (update_total sub
              (x509.set_EmailAddresses (x509.csrEmailAddresses csr))
              _ _ H3) as (w4 & E4).
  rewrite (bind_run _ _ _ _ _ E4). pose proof (update_Ok _ _ _ _ _ H3 E4) as H4.
  destruct (update_total sub (x509.set_IPAddresses (x509.csrIPAddresses csr))
              _ _ H4) as (w5 & E5).
  rewrite (bind_run _ _ _ _ _ E5). pose proof (update_Ok _ _ _ _ _ H4 E5) as H5.
  destruct (update_total sub (x509.set_URIs (x509.csrURIs csr))
              _ _ H5) as (w6 & E6).
  rewrite (bind_run _ _ _ _ _ E6).
  simpl. unfold newProfile, bind. simpl. eauto.
Qed.

(** ** C8: a leaf from a request *)

(** C8, as the code has it. [NewLeafProfileWithCSR] writes into the subject
    draft the subject of the request, its DNS names, email addresses, IP
    addresses and URIs as the lists they are (same elements, same order), and
    its extensions as the extra extensions: that is the draft it hands to the
    construction routine. With a key in the request, a live issuer and no
    option the call succeeds and returns that draft; with options the
    returned draft still has these values whenever no option of the caller
    writes these fields of the subject draft. *)
Theorem leaf_from_csr_copies_request csr iss issPriv w :
  (forall k i,
      x509.csrPublicKey csr = Some k ->
      deref iss w = Some i ->
      exists p w',
        NewLeafProfileWithCSR csr iss issPriv [] w = Ok (p, w') /\
        subjectField requestFields p w'
        = Some (x509.csrSubject csr, x509.csrDNSNames csr,
                x509.csrEmailAddresses csr, x509.csrIPAddresses csr,
                x509.csrURIs csr, x509.csrExtensions csr)) /\
  (forall ops p w',
      NewLeafProfileWithCSR csr iss issPriv ops w = Ok (p, w') ->
      (exists k w0,
          newProfile Leaf (subjectDraft p) iss issPriv
                     (ops ++ [WithPublicKey (Some k)]) w0 = Ok (p, w') /\
          subjectField requestFields p w0
          = Some (x509.csrSubject csr, x509.csrDNSNames csr,
                  x509.csrEmailAddresses csr, x509.csrIPAddresses csr,
                  x509.csrURIs csr, x509.csrExtensions csr)) /\
      (Forall (keeps (subjectField requestFields)) ops ->
       subjectField requestFields p w'
       = Some (x509.csrSubject csr, x509.csrDNSNames csr,
               x509.csrEmailAddresses csr, x509.csrIPAddresses csr,
               x509.csrURIs csr, x509.csrExtensions csr))).
Proof.
  assert (forall ops p w',
             NewLeafProfileWithCSR csr iss issPriv ops w = Ok (p, w') ->
             (exists k w0,
                 newProfile Leaf (subjectDraft p) iss issPriv
                            (ops ++ [WithPublicKey (Some k)]) w0 = Ok (p, w') /\
                 subjectField requestFields p w0
                 = Some (x509.csrSubject csr, x509.csrDNSNames csr,
                         x509.csrEmailAddresses csr, x509.csrIPAddresses csr,
                         x509.csrURIs csr, x509.csrExtensions csr)) /\
             (Forall (keeps (subjectField requestFields)) ops ->
              subjectField requestFields p w'
              = Some (x509.csrSubject csr, x509.csrDNSNames csr,
                      x509.csrEmailAddresses csr, x509.csrIPAddresses csr,
                      x509.csrURIs csr, x509.csrExtensions csr))) as Returned.
  { intros ops p w' E. apply NewLeafProfileWithCSR_Ok in E.
    destruct E as (k & i & c0 & sub & w0 & _ & _ & Hb & Hd & E).
    rewrite defaultLeafTemplate_built in Hb. inversion Hb; subst c0.
    destruct (newProfile_Ok _ _ _ _ _ _ _ _ E) as (Hp & _).
    split.
    - exists k, w0. subst p. simpl. split; [exact E|].
      unfold subjectField. simpl. rewrite Hd. reflexivity.
    - intros Hk.
      assert (Forall (keeps (subjectField requestFields))
                     (ops ++ [WithPublicKey (Some k)])) as Hk'.
      { apply Forall_app. split; [exact Hk|].
        constructor; [|constructor].
        apply WithPublicKey_keeps, subjectField_draftOnly. }
      rewrite (newProfile_subject_field requestFields _ _ _ _ _ _ _ _ _
                 Hd Hk' E).
      reflexivity. }
  split; [|exact Returned].
  intros k i Hk Hi.
  destruct (NewLeafProfileWithCSR_total csr iss issPriv w k i Hk Hi)
    as (p & w' & E).
  exists p, w'. split; [exact E|].
  apply (proj2 (Returned [] p w' E)). constructor.
Qed.

(** ** C9: the default validity *)

Lemma defaultRootTemplate_Ok cn w sub w0 :
  defaultRootTemplate cn w = Ok (sub, w0) ->
  exists c, deref sub w0 = Some c /\ validity c = DefaultRootCertValidity.
Proof.
  intros E. pose proof (built_Ok _ _ _ _ E) as Hb.
  rewrite defaultRootTemplate_built in Hb. eexists. split; [symmetry; exact Hb|].
  unfold validity, time.Add. simpl. lia.
Qed.

Lemma defaultIntermediateTemplate_Ok v name w sub w0 :
  defaultIntermediateTemplate v name w = Ok (sub, w0) ->
  exists c, deref sub w0 = Some c /\
            validity c = DefaultIntermediateCertValidity.
Proof.
  intros E. pose proof (built_Ok _ _ _ _ E) as Hb.
  destruct (defaultIntermediateTemplate_built v name w)
    as (c & Hc & _ & _ & _ & _ & Hnb & Hna).
  rewrite Hb in Hc. exists c. split; [exact Hc|].
  unfold validity. rewrite Hnb, Hna. lia.
Qed.

Lemma defaultLeafTemplate_Ok s i w sub w0 :
  defaultLeafTemplate s i w = Ok (sub, w0) ->
  exists c, deref sub w0 = Some c /\ validity c = DefaultCertValidity.
Proof.
  intros E. pose proof (built_Ok _ _ _ _ E) as Hb.
  rewrite defaultLeafTemplate_built in Hb. eexists. split; [symmetry; exact Hb|].
  unfold validity, time.Add. simpl. lia.
Qed.

(** C9, as the code has it. When no option of the caller writes the validity
    window of the subject draft, a profile built by an entry point that
    starts from the default template of its role ([NewRootProfile],
    [NewIntermediateProfile], [NewLeafProfile], [NewSelfSignedLeafProfile],
    [NewLeafProfileWithCSR]) has [NotAfter - NotBefore] equal to the
    [DefaultDuration] of the role; a profile built from a caller's template
    ([NewRootProfileWithTemplate], [NewLeafProfileWithTemplate]) has the
    validity window of that template instead. *)
Theorem default_validity_is_default_duration e ops w p w' :
  Forall (keeps (subjectField validity)) ops ->
  construct e ops w = Ok (p, w') ->
  subjectField validity p w'
  = if fromDefaultTemplate e then Some (DefaultDuration p)
    else validity <$> deref (templateOf e) w.
Proof.
  intros Hk E.
  assert (Forall (keeps (subjectField validity)) (ops ++ [])) as Hk0
    by now rewrite app_nil_r.
  assert (forall k, Forall (keeps (subjectField validity))
                           (ops ++ [WithPublicKey k])) as Hk1.
  { intros k. apply Forall_app. split; [exact Hk|].
    constructor; [|constructor].
    apply WithPublicKey_keeps, subjectField_draftOnly. }
  destruct e; simpl in *.
  - unfold NewRootProfile in E.
    apply bind_Ok in E. destruct E as (crt & w0 & Et & E).
    apply selfSign_Ok in E. destruct E as (w1 & E & ->).
    apply wrap_Ok in E.
    destruct (defaultRootTemplate_Ok _ _ _ _ Et) as (c & Hc & Hv).
    pose proof (newProfile_subject_field validity _ _ _ _ _ _ _ _ _ Hc Hk E) as H.
    destruct (newProfile_Ok _ _ _ _ _ _ _ _ E) as (Hp & _).
    rewrite Hv in H. rewrite Hp at 2. exact H.
  - apply selfSign_Ok in E. destruct E as (w1 & E & ->).
    apply wrap_Ok in E.
    pose proof (newProfile_keeps (subjectField validity) _ _ _ _ _ _ _ _
                  (subjectField_draftOnly validity) Hk E) as H.
    destruct (newProfile_Ok _ _ _ _ _ _ _ _ E) as (Hp & _).
    rewrite Hp in H at 2. exact H.
  - unfold NewIntermediateProfile in E.
    apply bind_Ok in E. destruct E as (sub & w0 & Et & E).
    destruct (defaultIntermediateTemplate_Ok _ _ _ _ _ Et) as (c & Hc & Hv).
    pose proof (newProfile_subject_field validity _ _ _ _ _ _ _ _ _ Hc Hk E) as H.
    destruct (newProfile_Ok _ _ _ _ _ _ _ _ E) as (Hp & _).
    rewrite Hv in H. rewrite Hp at 2. exact H.
  - unfold NewLeafProfileWithTemplate in E.
    apply bind_Ok in E. destruct E as (s & w0 & Es & E).
    assert (w0 = w /\ deref sub w = Some s) as (-> & Hs).
    { unfold load in Es. unfold deref. destruct sub as [|a]; [discriminate|].
      destruct (certs w !! a); inversion Es; subst; auto. }
    rewrite Hs. simpl.
    exact (newProfile_subject_field validity _ _ _ _ _ _ _ _ _ Hs (Hk1 _) E).
  - unfold NewLeafProfile in E.
    apply bind_Ok in E. destruct E as (i & w0 & _ & E).
    apply bind_Ok in E. destruct E as (sub & w1 & Et & E).
    destruct (defaultLeafTemplate_Ok _ _ _ _ _ Et) as (c & Hc & Hv).
    pose proof (newProfile_subject_field validity _ _ _ _ _ _ _ _ _ Hc Hk E) as H.
    destruct (newProfile_Ok _ _ _ _ _ _ _ _ E) as (Hp & _).
    rewrite Hv in H. rewrite Hp at 2. exact H.
  - unfold NewSelfSignedLeafProfile in E.
    apply bind_Ok in E. destruct E as (sub & w0 & Et & E).
    apply selfSign_Ok in E. destruct E as (w1 & E & ->).
    destruct (defaultLeafTemplate_Ok _ _ _ _ _ Et) as (c & Hc & Hv).
    pose proof (newProfile_subject_field validity _ _ _ _ _ _ _ _ _ Hc Hk E) as H.
    destruct (newProfile_Ok _ _ _ _ _ _ _ _ E) as (Hp & _).
    rewrite Hv in H. rewrite Hp at 2. exact H.
  - apply NewLeafProfileWithCSR_Ok in E.
    destruct E as (k & i & c0 & sub & w0 & _ & _ & Hb & Hd & E).
    pose proof (newProfile_subject_field validity _ _ _ _ _ _ _ _ _
                  Hd (Hk1 _) E) as H.
    destruct (newProfile_Ok _ _ _ _ _ _ _ _ E) as (Hp & _).
    rewrite defaultLeafTemplate_built in Hb. inversion Hb; subst c0.
    rewrite H, Hp. unfold validity, time.Add, DefaultDuration. simpl.
    f_equal. lia.
Qed.

(** An option that rewrites the subject draft keeps every field that the
    rewriting function keeps. *)
Lemma update_subject_keeps {A} (g : x509.Certificate -> A) f :
  (forall c, g (f c) = g c) ->
  keeps (subjectField g) (fun p => update (subjectDraft p) f).
Proof.
  intros Hg p w w' E. unfold subjectField.
  unfold update in E. apply bind_Ok in E. destruct E as (c & w1 & E1 & E2).
  unfold load in E1. unfold store in E2. unfold deref.
  destruct (subjectDraft p) as [|a]; [discriminate|].
  destruct (certs w !! a) eqn:Ha; [|discriminate].
  inversion E1; subst. rewrite Ha in E2. inversion E2; subst. simpl.
  rewrite list_lookup_insert_eq; [|now apply lookup_lt_Some in Ha].
  simpl. now rewrite Hg.
Qed.

End Profiles.

(** ** Concrete runs *)

(** C1 on a run: a root built with an option that sets the issuer key. The
    key set by the option is gone; the issuer key is the generated subject
    key. *)
Lemma self_signed_root_run :
  exists p w',
    construct oneDay (RootFromName "root-ca") [overwriteIssuerKey (crypto.key 6)]
              emptyWorld = Ok (p, w') /\
    issuerDraft p = subjectDraft p /\
    issuerPrivateKey w' = subjectPrivateKey w' /\
    issuerPrivateKey w' = Some (crypto.key 2).
Proof.
  eexists. eexists. split; [vm_compute; reflexivity|].
  destruct (self_signed_shares_draft_and_key oneDay (RootFromName "root-ca")
              [overwriteIssuerKey (crypto.key 6)] emptyWorld _ _
              eq_refl eq_refl) as (H1 & H2 & _).
  split; [exact H1|]. split; [exact H2|]. reflexivity.
Defined.

(** C3 on a run: a request without a key. *)
Lemma csr_without_public_key_run :
  NewLeafProfileWithCSR oneDay requestWithoutKey (addr 0) (Some (crypto.key 9))
                        [WithCommonName "x"] worldWithCA
    = Err (Errorf "CSR must have PublicKey") /\
  observe (fun p _ => p)
          (NewLeafProfileWithCSR oneDay requestWithoutKey (addr 0)
             (Some (crypto.key 9)) [WithCommonName "x"] worldWithCA) = None.
Proof.
  exact (csr_without_public_key_is_rejected oneDay requestWithoutKey (addr 0)
           (Some (crypto.key 9)) [WithCommonName "x"] worldWithCA eq_refl).
Defined.

(** C5: the template of part_000 has no "any" among its extended key usages,
    the root template has; the two lists differ. *)
Lemma intermediate_part_000_lacks_any :
  exists r i,
    built (defaultRootTemplate "ca") emptyWorld = Some r /\
    built (part_000.defaultIntermediateTemplate "ca") emptyWorld = Some i /\
    In x509.ExtKeyUsageAny (x509.ExtKeyUsage_ r) /\
    ~ In x509.ExtKeyUsageAny (x509.ExtKeyUsage_ i) /\
    x509.ExtKeyUsage_ i <> x509.ExtKeyUsage_ r.
Proof.
  eexists. eexists.
  split; [vm_compute; reflexivity|]. split; [vm_compute; reflexivity|].
  simpl. split; [now left|]. split; [|discriminate].
  intros H. repeat (destruct H as [H|H]; [discriminate|]). exact H.
Qed.

(** C8 on a run: the request for a.example and b.example. *)
Lemma leaf_from_csr_run :
  exists p w',
    NewLeafProfileWithCSR oneDay requestAB (addr 0) (Some (crypto.key 9)) []
                          worldWithCA = Ok (p, w') /\
    subjectField requestFields p w'
    = Some (x509.csrSubject requestAB, x509.csrDNSNames requestAB,
            x509.csrEmailAddresses requestAB, x509.csrIPAddresses requestAB,
            x509.csrURIs requestAB, x509.csrExtensions requestAB) /\
    subjectField x509.DNSNames p w' = Some ["a.example"; "b.example"].
Proof.
  destruct (proj1 (leaf_from_csr_copies_request oneDay requestAB (addr 0)
                     (Some (crypto.key 9)) worldWithCA)
                  (crypto.key 5) issuingCA eq_refl eq_refl)
    as (p & w' & E & H).
  exists p, w'. split; [exact E|]. split; [exact H|].
  unfold subjectField in *. destruct (deref (subjectDraft p) w') as [c|];
    [|discriminate].
  simpl in *. injection H as _ HD _ _ _ _. now rewrite HD.
Defined.

(** C8: an option that overwrites the DNS names; the returned subject draft
    does not have the names of the request. *)
Lemma leaf_from_csr_option_overwrites_names :
  observe (subjectField x509.DNSNames)
          (NewLeafProfileWithCSR oneDay requestAB (addr 0) (Some (crypto.key 9))
             [overwriteDNSNames ["c.example"]] worldWithCA)
    = Some (Some ["c.example"]) /\
  x509.csrDNSNames requestAB = ["a.example"; "b.example"].
Proof. split; reflexivity. Qed.

(** C9 on a run: a leaf from a request, with an option that leaves the
    validity window alone. *)
Lemma default_validity_run :
  exists p w',
    construct oneDay (LeafFromCSR requestAB (addr 0) (Some (crypto.key 9)))
              [WithCommonName "x"] worldWithCA = Ok (p, w') /\
    subjectField validity p w' = Some (DefaultDuration oneDay p) /\
    DefaultDuration oneDay p = 24 * time.Hour.
Proof.
  eexists. eexists. split; [vm_compute; reflexivity|].
  split; [|reflexivity].
  apply (default_validity_is_default_duration oneDay
           (LeafFromCSR requestAB (addr 0) (Some (crypto.key 9)))
           [WithCommonName "x"] worldWithCA); [|reflexivity].
  constructor; [|constructor].
  apply (update_subject_keeps validity). intros c. reflexivity.
Defined.

(** C9: a root built from a caller's template that is valid for an hour, with
    no option. The profile is a Root, its default duration is ten years, and
    its subject draft is valid for an hour. *)
Lemma root_from_template_has_template_validity :
  observe (fun p w => (role p, DefaultDuration oneDay p, subjectField validity p w))
          (construct oneDay (RootFromTemplate (addr 0)) [] worldWithCA)
    = Some (Root, DefaultRootCertValidity, Some time.Hour) /\
  time.Hour <> DefaultRootCertValidity.
Proof. split; [reflexivity | discriminate]. Qed.

(** A template without a public key: the forced option sets nil, and a key
    pair is generated as for a profile built from a name. *)
Example template_without_key_gets_generated_key :
  x509.PublicKey keylessDraft = None /\
  observe (fun _ w => subjectPublicKey w)
          (NewLeafProfileWithTemplate (addr 1) (addr 0) (Some (crypto.key 9)) []
             (with_certs [issuingCA; keylessDraft] emptyWorld))
  = Some (Some (crypto.key 1)).
Proof. split; reflexivity. Qed.

(** ** What the entry points do before the construction routine runs

    The statements below follow each entry point up to its call of
    [newProfile] and say what it hands over: which objects, in which world.
    They hold whatever [newProfile] does with them. *)

Lemma load_live p w c : deref p w = Some c -> load p w = Ok (c, w).
Proof.
  unfold deref, load. destruct p as [|a]; [discriminate|].
  intros H. now rewrite H.
Qed.

Lemma load_dead p w : deref p w = None -> load p w = Panic.
Proof.
  unfold deref, load. destruct p as [|a]; [reflexivity|].
  intros H. now rewrite H.
Qed.

Lemma live_is_not_fresh p w c :
  deref p w = Some c -> addr (length (certs w)) <> p.
Proof.
  unfold deref. destruct p as [|a]; [discriminate|].
  intros H E. injection E as E. subst a.
  apply lookup_lt_Some in H. lia.
Qed.

(** Writing a field of the object that was allocated last. *)
Lemma update_last f l c w :
  certs w = l ++ [c] ->
  update (addr (length l)) f w = Ok (tt, with_certs (l ++ [f c]) w).
Proof.
  intros Hw. unfold update, bind, load, store.
  rewrite Hw, list_lookup_middle by reflexivity.
  rewrite Hw, list_lookup_middle by reflexivity.
  do 3 f_equal.
  replace (length l) with (length l + 0)%nat by lia.
  now rewrite insert_app_r.
Qed.

(** One field assignment on the draft that was allocated last. *)
Ltac run_update :=
  match goal with
  | |- bind (update (addr (length ?l)) ?f) _ ?w' = _ =>
      rewrite (bind_run _ _ _ _ _ (update_last f l _ w' eq_refl))
  end.

Lemma defaultLeafTemplate_run D s i w :
  exists c,
    built (defaultLeafTemplate D s i) w = Some c /\
    defaultLeafTemplate D s i w
    = Ok (addr (length (certs w)), with_certs (certs w ++ [c]) w).
Proof.
  eexists. split; [apply defaultLeafTemplate_built | reflexivity].
Qed.

Lemma defaultIntermediateTemplate_run v name w :
  exists c,
    built (defaultIntermediateTemplate v name) w = Some c /\
    defaultIntermediateTemplate v name w
    = Ok (addr (length (certs w)), with_certs (certs w ++ [c]) w).
Proof.
  destruct v; eexists;
    (split;
     [ unfold built, defaultIntermediateTemplate,
         part_000.defaultIntermediateTemplate,
         part_000_related.defaultIntermediateTemplate,
         part_001.defaultIntermediateTemplate, bind, time_Now, new, deref;
       simpl; rewrite list_lookup_middle; reflexivity
     | reflexivity ]).
Qed.


Lemma NewLeafProfile_handover D cn iss issPriv ops w i c :
  deref iss w = Some i ->
  built (defaultLeafTemplate D (pkix.Name_CommonName cn) (x509.Subject i)) w
    = Some c ->
  NewLeafProfile D cn iss issPriv ops w
  = newProfile Leaf (addr (length (certs w))) iss issPriv ops
      (with_certs (certs w ++ [c]) w).
Proof.
  intros Hi Hc.
  destruct (defaultLeafTemplate_run D (pkix.Name_CommonName cn) (x509.Subject i) w)
    as (c' & Hb & Hrun).
  rewrite Hc in Hb. injection Hb as <-.
  unfold NewLeafProfile.
  rewrite (bind_run _ _ _ _ _ (load_live _ _ _ Hi)).
  now rewrite (bind_run _ _ _ _ _ Hrun).
Qed.

Lemma NewLeafProfileWithCSR_handover D csr iss issPriv ops w k i c0 :
  x509.csrPublicKey csr = Some k ->
  deref iss w = Some i ->
  built (defaultLeafTemplate D (x509.csrSubject csr) (x509.Subject i)) w
    = Some c0 ->
  NewLeafProfileWithCSR D csr iss issPriv ops w
  = newProfile Leaf (addr (length (certs w))) iss issPriv
      (ops ++ [WithPublicKey (Some k)])
      (with_certs (certs w ++ [draftOfRequest csr c0]) w).
Proof.
  intros Hk Hi Hc.
  destruct (defaultLeafTemplate_run D (x509.csrSubject csr) (x509.Subject i) w)
    as (c' & Hb & Hrun).
  rewrite Hc in Hb. injection Hb as <-.
  unfold NewLeafProfileWithCSR. rewrite Hk.
  rewrite (bind_run _ _ _ _ _ (load_live _ _ _ Hi)).
  rewrite (bind_run _ _ _ _ _ Hrun).
  do 5 run_update.
  reflexivity.
Qed.

(** X1. [NewLeafProfile] with a live issuer allocates one draft and hands it
    to [newProfile] with the caller's issuer and options. The subject of the
    draft is the common name, its issuer name is the subject of the issuer
    certificate as it is at the call; it has no alternative name, no extra
    extension and no public key, whatever the common name looks like. The
    draft is a new object, not the issuer, and every object that existed
    before the call is as it was. *)
Theorem leaf_from_name_hands_over D cn iss issPriv ops w i :
  deref iss w = Some i ->
  exists c,
    built (defaultLeafTemplate D (pkix.Name_CommonName cn) (x509.Subject i)) w
      = Some c /\
    NewLeafProfile D cn iss issPriv ops w
    = newProfile Leaf (addr (length (certs w))) iss issPriv ops
        (with_certs (certs w ++ [c]) w) /\
    x509.Subject c = pkix.Name_CommonName cn /\
    x509.Issuer c = x509.Subject i /\
    namesAndKey c = ([], [], [], [], [], None) /\
    addr (length (certs w)) <> iss /\
    (forall a x, certs w !! a = Some x -> (certs w ++ [c]) !! a = Some x).
Proof.
  intros Hi.
  destruct (defaultLeafTemplate_run D (pkix.Name_CommonName cn) (x509.Subject i) w)
    as (c & Hb & Hrun).
  exists c. split; [exact Hb|].
  split.
  { unfold NewLeafProfile.
    rewrite (bind_run _ _ _ _ _ (load_live _ _ _ Hi)).
    now rewrite (bind_run _ _ _ _ _ Hrun). }
  rewrite defaultLeafTemplate_built in Hb. injection Hb as <-.
  repeat split; try reflexivity.
  - exact (live_is_not_fresh _ _ _ Hi).
  - intros a x Ha. now apply lookup_app_l_Some.
Qed.

(** X2. [NewLeafProfileWithCSR] with a key in the request and a live issuer
    allocates one draft, writes it five times and hands it to [newProfile]
    with the caller's options followed by the forced public key. At that
    point the draft is the leaf template for the subject of the request and
    the subject of the issuer, with the alternative names and the extensions
    of the request in place of the empty ones and every other field as the
    template has it: in particular the public key of the request is not in
    the draft, it travels in the forced option only. The draft is a new
    object, and every object that existed before the call is as it was. *)
Theorem leaf_from_csr_hands_over D csr iss issPriv ops w k i :
  x509.csrPublicKey csr = Some k ->
  deref iss w = Some i ->
  exists c0,
    built (defaultLeafTemplate D (x509.csrSubject csr) (x509.Subject i)) w
      = Some c0 /\
    NewLeafProfileWithCSR D csr iss issPriv ops w
    = newProfile Leaf (addr (length (certs w))) iss issPriv
        (ops ++ [WithPublicKey (Some k)])
        (with_certs (certs w ++ [draftOfRequest csr c0]) w) /\
    outsideAlternativeNames (draftOfRequest csr c0) = outsideAlternativeNames c0 /\
    x509.PublicKey (draftOfRequest csr c0) = None /\
    x509.Issuer (draftOfRequest csr c0) = x509.Subject i /\
    addr (length (certs w)) <> iss /\
    (forall a x,
        certs w !! a = Some x ->
        (certs w ++ [draftOfRequest csr c0]) !! a = Some x).
Proof.
  intros Hk Hi.
  destruct (defaultLeafTemplate_run D (x509.csrSubject csr) (x509.Subject i) w)
    as (c0 & Hb & Hrun).
  exists c0. split; [exact Hb|].
  split.
  { unfold NewLeafProfileWithCSR. rewrite Hk.
    rewrite (bind_run _ _ _ _ _ (load_live _ _ _ Hi)).
    rewrite (bind_run _ _ _ _ _ Hrun).
    do 5 run_update.
    reflexivity. }
  rewrite defaultLeafTemplate_built in Hb. injection Hb as <-.
  repeat split; try reflexivity.
  - exact (live_is_not_fresh _ _ _ Hi).
  - intros a x Ha. now apply lookup_app_l_Some.
Qed.

(** X3. A request that carries nothing but a common name and a public key is
    handled exactly as [NewLeafProfile] with that name is when the caller
    adds [WithPublicKey] of the key as the last option: the same result in
    every world, a nil issuer included. *)
Theorem bare_request_is_leaf_from_name D cn k iss issPriv ops w :
  NewLeafProfileWithCSR D (bareRequest cn k) iss issPriv ops w
  = NewLeafProfile D cn iss issPriv (ops ++ [WithPublicKey (Some k)]) w.
Proof.
  destruct (deref iss w) as [i|] eqn:Hi.
  - rewrite (NewLeafProfileWithCSR_handover D (bareRequest cn k) iss issPriv ops
               w k i _ eq_refl Hi
               (defaultLeafTemplate_built D (pkix.Name_CommonName cn)
                  (x509.Subject i) w)).
    rewrite (NewLeafProfile_handover D cn iss issPriv
               (ops ++ [WithPublicKey (Some k)]) w i _ Hi
               (defaultLeafTemplate_built D (pkix.Name_CommonName cn)
                  (x509.Subject i) w)).
    reflexivity.
  - unfold NewLeafProfileWithCSR, NewLeafProfile. simpl.
    unfold bind. now rewrite (load_dead _ _ Hi).
Qed.

(** X4. The leaf entry points dereference their pointers before anything
    else: with a nil issuer [NewLeafProfile] panics, [NewLeafProfileWithCSR]
    panics when the request has a key and reports the missing key when it
    has none, and [NewLeafProfileWithTemplate] panics on a nil template. No
    option has run by then. *)
Theorem leaf_entry_points_on_nil D cn csr iss issPriv ops w :
  NewLeafProfile D cn null issPriv ops w = Panic /\
  NewLeafProfileWithCSR D csr null issPriv ops w
  = match x509.csrPublicKey csr with
    | Some _ => Panic
    | None => Err (Errorf "CSR must have PublicKey")
    end /\
  NewLeafProfileWithTemplate null iss issPriv ops w = Panic.
Proof.
  unfold NewLeafProfile, NewLeafProfileWithCSR, NewLeafProfileWithTemplate.
  destruct (x509.csrPublicKey csr); repeat split; reflexivity.
Qed.

(** X5. [NewIntermediateProfile] does not read the issuer certificate: for
    every issuer pointer, nil included, it hands [newProfile] the same fresh
    draft, whose issuer name is the intermediate's own name like its subject,
    not the subject of the issuer. [NewSelfSignedLeafProfile] names its draft
    the same way, and passes that one draft as subject and as issuer. *)
Theorem self_named_drafts D v name w :
  (exists c,
      built (defaultIntermediateTemplate v name) w = Some c /\
      x509.Subject c = pkix.Name_CommonName name /\
      x509.Issuer c = pkix.Name_CommonName name /\
      forall iss issPriv ops,
        NewIntermediateProfile v name iss issPriv ops w
        = newProfile Intermediate (addr (length (certs w))) iss issPriv ops
            (with_certs (certs w ++ [c]) w)) /\
  (exists c,
      built (defaultLeafTemplate D (pkix.Name_CommonName name)
                                 (pkix.Name_CommonName name)) w = Some c /\
      x509.Subject c = pkix.Name_CommonName name /\
      x509.Issuer c = pkix.Name_CommonName name /\
      forall ops,
        NewSelfSignedLeafProfile D name ops w
        = (p <- newProfile Leaf (addr (length (certs w)))
                           (addr (length (certs w))) None ops ;;
           k <- SubjectPrivateKey p ;;
           _ <- SetIssuerPrivateKey p k ;;
           ret p) (with_certs (certs w ++ [c]) w)).
Proof.
  split.
  - destruct (defaultIntermediateTemplate_run v name w) as (c & Hb & Hrun).
    exists c. split; [exact Hb|].
    assert (x509.Subject c = pkix.Name_CommonName name /\
            x509.Issuer c = pkix.Name_CommonName name) as (Hs & Hi).
    { clear Hrun. destruct v;
        unfold built, defaultIntermediateTemplate,
          part_000.defaultIntermediateTemplate,
          part_000_related.defaultIntermediateTemplate,
          part_001.defaultIntermediateTemplate, bind, time_Now, new, deref in Hb;
        simpl in Hb; rewrite list_lookup_middle in Hb by reflexivity;
        injection Hb as <-; split; reflexivity. }
    split; [exact Hs|]. split; [exact Hi|].
    intros iss issPriv ops. unfold NewIntermediateProfile.
    now rewrite (bind_run _ _ _ _ _ Hrun).
  - destruct (defaultLeafTemplate_run D (pkix.Name_CommonName name)
                (pkix.Name_CommonName name) w) as (c & Hb & Hrun).
    exists c. split; [exact Hb|].
    rewrite defaultLeafTemplate_built in Hb. injection Hb as <-.
    split; [reflexivity|]. split; [reflexivity|].
    intros ops. unfold NewSelfSignedLeafProfile.
    now rewrite (bind_run _ _ _ _ _ Hrun).
Qed.

(** X6. The extended key usages of the leaf template are allowed by every
    issuing template: each of them is listed in the root template and in all
    three intermediate templates. The same holds for the vendor usages with
    the root template and the templates of part_000 (first document) and
    part_001; the second document of part_000 lists no vendor usage, so a
    leaf under it has three usages that its issuer does not list. *)
Theorem leaf_usages_within_issuers D sub iss name w :
  exists l r i0 i0' i1,
    built (defaultLeafTemplate D sub iss) w = Some l /\
    built (defaultRootTemplate name) w = Some r /\
    built (part_000.defaultIntermediateTemplate name) w = Some i0 /\
    built (part_000_related.defaultIntermediateTemplate name) w = Some i0' /\
    built (part_001.defaultIntermediateTemplate name) w = Some i1 /\
    Forall (fun t => List.incl (x509.ExtKeyUsage_ l) (x509.ExtKeyUsage_ t))
           [r; i0; i0'; i1] /\
    Forall (fun t => List.incl (x509.UnknownExtKeyUsage l)
                               (x509.UnknownExtKeyUsage t))
           [r; i0; i1] /\
    x509.UnknownExtKeyUsage i0' = [] /\
    length (x509.UnknownExtKeyUsage l) = 3%nat.
Proof.
  do 5 eexists.
  split; [apply defaultLeafTemplate_built|].
  split; [apply defaultRootTemplate_built|].
  do 3 (split;
        [ unfold built, part_000.defaultIntermediateTemplate,
            part_000_related.defaultIntermediateTemplate,
            part_001.defaultIntermediateTemplate, bind, time_Now, new, deref;
          simpl; rewrite list_lookup_middle; reflexivity |]).
  simpl.
  split; [|split; [|split; reflexivity]].
  - repeat (apply List.Forall_cons); try apply List.Forall_nil;
      intros u Hu; simpl in *;
      repeat (destruct Hu as [<-|Hu]; [tauto|]); contradiction.
  - repeat (apply List.Forall_cons); try apply List.Forall_nil;
      intros u Hu; simpl in *;
      repeat (destruct Hu as [<-|Hu]; [tauto|]); contradiction.
Qed.

(** X7. Every default template starts its validity at the clock reading of
    the call. The root and the intermediate templates always end later than
    they start; the leaf template does so exactly when [DefaultCertValidity]
    is positive, nothing else guards the window. *)
Theorem default_templates_validity_window D sub iss name v w :
  exists l r i,
    built (defaultLeafTemplate D sub iss) w = Some l /\
    built (defaultRootTemplate name) w = Some r /\
    built (defaultIntermediateTemplate v name) w = Some i /\
    x509.NotBefore l = clock w /\
    x509.NotBefore r = clock w /\
    x509.NotBefore i = clock w /\
    x509.NotBefore r < x509.NotAfter r /\
    x509.NotBefore i < x509.NotAfter i /\
    (x509.NotBefore l < x509.NotAfter l <-> 0 < D).
Proof.
  destruct (defaultIntermediateTemplate_built v name w)
    as (i & Hi & _ & _ & _ & _ & Hnb & Hna).
  eexists. eexists. exists i.
  split; [apply defaultLeafTemplate_built|].
  split; [apply defaultRootTemplate_built|].
  split; [exact Hi|].
  rewrite Hnb, Hna. simpl. unfold time.Add.
  unfold DefaultRootCertValidity, DefaultIntermediateCertValidity.
  assert (0 < time.Hour * 24 * 365 * 10) as Hpos by reflexivity.
  repeat split; try reflexivity; simpl; lia.
Qed.

(** X8. The root and the intermediate templates are valid for the same
    span, and neither looks at the other: an intermediate template built
    after a root template ends after it, by as much as it was built later. *)
Theorem later_intermediate_outlives_root v rootName name w1 w2 r i :
  built (defaultRootTemplate rootName) w1 = Some r ->
  built (defaultIntermediateTemplate v name) w2 = Some i ->
  x509.NotAfter i - x509.NotAfter r = clock w2 - clock w1 /\
  (clock w1 < clock w2 -> x509.NotAfter r < x509.NotAfter i).
Proof.
  intros Hr Hi. rewrite defaultRootTemplate_built in Hr. injection Hr as <-.
  destruct (defaultIntermediateTemplate_built v name w2)
    as (i' & Hi' & _ & _ & _ & _ & _ & Hna).
  rewrite Hi in Hi'. injection Hi' as <-. rewrite Hna. simpl.
  unfold time.Add, DefaultRootCertValidity, DefaultIntermediateCertValidity.
  split; [|intros H]; lia.
Qed.

(** X1 on a run: a leaf named like a host, under the CA at address 0. *)
Lemma leaf_from_name_handover_run :
  exists c,
    NewLeafProfile oneDay "host.example" (addr 0) (Some (crypto.key 9))
                   [WithCommonName "x"] worldWithCA
    = newProfile Leaf (addr 1) (addr 0) (Some (crypto.key 9))
                 [WithCommonName "x"] (with_certs [issuingCA; c] worldWithCA) /\
    x509.Issuer c = pkix.Name_CommonName "root-ca" /\
    x509.DNSNames c = [].
Proof.
  destruct (leaf_from_name_hands_over oneDay "host.example" (addr 0)
              (Some (crypto.key 9)) [WithCommonName "x"] worldWithCA issuingCA
              eq_refl) as (c & _ & E & _ & Hi & Hn & _).
  exists c. split; [exact E|]. split; [exact Hi|].
  now injection Hn.
Defined.

(** X2 on a run: the request for a.example and b.example. *)
Lemma leaf_from_csr_handover_run :
  exists c0,
    NewLeafProfileWithCSR oneDay requestAB (addr 0) (Some (crypto.key 9)) []
                          worldWithCA
    = newProfile Leaf (addr 1) (addr 0) (Some (crypto.key 9))
                 [WithPublicKey (Some (crypto.key 5))]
                 (with_certs [issuingCA; draftOfRequest requestAB c0]
                             worldWithCA) /\
    x509.PublicKey (draftOfRequest requestAB c0) = None /\
    x509.DNSNames (draftOfRequest requestAB c0) = ["a.example"; "b.example"].
Proof.
  destruct (leaf_from_csr_hands_over oneDay requestAB (addr 0)
              (Some (crypto.key 9)) [] worldWithCA (crypto.key 5) issuingCA
              eq_refl eq_refl) as (c0 & _ & E & _ & Hk & _).
  exists c0. split; [exact E|]. split; [exact Hk|]. reflexivity.
Defined.

(** X8 on a run: a root built at one instant, an intermediate an hour
    later. *)
Lemma later_intermediate_run :
  exists r i,
    built (defaultRootTemplate "root-ca") emptyWorld = Some r /\
    built (defaultIntermediateTemplate in_part_001 "intermediate-ca")
          {| certs := []; clock := clock emptyWorld + time.Hour;
             keygen := keygen emptyWorld; subjectPublicKey := None;
             subjectPrivateKey := None; issuerPrivateKey := None |} = Some i /\
    x509.NotAfter i - x509.NotAfter r = time.Hour /\
    x509.NotAfter r < x509.NotAfter i.
Proof.
  eexists. eexists.
  split; [vm_compute; reflexivity|]. split; [vm_compute; reflexivity|].
  destruct (later_intermediate_outlives_root in_part_001 "root-ca"
              "intermediate-ca" emptyWorld
              {| certs := []; clock := clock emptyWorld + time.Hour;
                 keygen := keygen emptyWorld; subjectPublicKey := None;
                 subjectPrivateKey := None; issuerPrivateKey := None |}
              _ _ eq_refl eq_refl) as (H1 & H2).
  split; [exact H1|]. apply H2. reflexivity.
Defined.

(** ** The option pipeline seen from the entry points *)













(** ** C2: the order of the options *)




(** ** C10: the forced public key *)



(** ** The draft of an intermediate *)

(** X9. For every issuer pointer, key and option list,
    [NewIntermediateProfile] hands [newProfile] a fresh subject draft that
    is a CA with valid basic constraints, [MaxPathLen] 0 and
    [MaxPathLenZero] set, that is a path-length constraint that is present
    and equal to 0, together with the caller's issuer pointer and the role
    Intermediate. This holds in all three copies of the template. *)
Theorem intermediate_hands_over_ca_draft v name w :
  exists c,
    built (defaultIntermediateTemplate v name) w = Some c /\
    caConstraints c = (true, true, 0, true) /\
    x509.pathLenConstraint c = Some 0 /\
    forall iss issPriv ops,
      NewIntermediateProfile v name iss issPriv ops w
      = newProfile Intermediate (addr (length (certs w))) iss issPriv ops
          (with_certs (certs w ++ [c]) w).
Proof.
  destruct (defaultIntermediateTemplate_run v name w) as (c & Hb & Hrun).
  destruct (defaultIntermediateTemplate_built v name w)
    as (c' & Hb' & Hca & Hbc & Hlen & Hzero & _).
  rewrite Hb in Hb'. injection Hb' as <-.
  exists c. split; [exact Hb|].
  split; [unfold caConstraints; now rewrite Hca, Hbc, Hlen, Hzero|].
  split; [unfold x509.pathLenConstraint; now rewrite Hbc, Hlen, Hzero|].
  intros iss issPriv ops. unfold NewIntermediateProfile.
  now rewrite (bind_run _ _ _ _ _ Hrun).
Qed.
